(** * Smart scheduling and natural-language quick-add: a shallow embedding

  This development embeds the two algorithmic utilities of the task
  manager, [src/lib/smart-scheduling.ts] and
  [src/lib/natural-language-parser.ts], and states their properties.
  It also embeds what sits around them: the handler of the task form that
  asks for suggestions, the fuzzy search of the search bar and the title
  and name validators.

  Conventions of the embedding.
  - A JavaScript [Date] is the number of milliseconds it holds, read on the
    local wall-clock time line, so that local midnight is a multiple of a
    day.  The arithmetic of one working day (minutes added, dates compared,
    fields read and set) is done on that line as if it had no
    daylight-saving jump.  [addHours], which the code uses to step over
    whole days, goes through UTC with the offsets of a [Zone], so that a
    daylight-saving change between the two dates shows.  Invalid dates (NaN)
    are outside the model.
  - Durations are integers (minutes).  The source divides a millisecond
    difference by 60000 in floating point and compares the quotient with an
    integer number of minutes; the embedding compares the exact products,
    which gives the same answer for dates less than 2^53 ms apart.
  - A JavaScript string is a [string] of code units below 256 (Latin-1). *)

From Stdlib Require Import ZArith List Bool Lia String Ascii Sorted Permutation DecimalString.
Import ListNotations.

Open Scope Z_scope.

(** ** The part of the Date API and of date-fns that the two files use *)

Module DateFns.

Definition Date := Z.

Definition MS_PER_MINUTE : Z := 60000.
Definition MS_PER_HOUR : Z := 3600000.
Definition MS_PER_DAY : Z := 86400000.

(** A time zone, as ECMAScript's LocalTZA: the offset of local time from UTC
    in milliseconds, at a UTC instant and at a local time (a local time that
    a change of offset skips or repeats is read with the offset in force
    before the change). *)
Record Zone := mkZone {
  offsetAtUtc : Z -> Z;
  offsetAtLocal : Z -> Z
}.

Definition toUtc (zone : Zone) (local : Date) : Z := local - offsetAtLocal zone local.
Definition toLocal (zone : Zone) (utc : Z) : Date := utc + offsetAtUtc zone utc.

(** A zone without daylight saving. *)
Definition fixedOffset (offset : Z) : Zone := mkZone (fun _ => offset) (fun _ => offset).

Definition addMinutes (d : Date) (amount : Z) : Date := d + amount * MS_PER_MINUTE.

(** date-fns [addHours] adds elapsed milliseconds to the instant the date
    holds; read on the local time line the result is off by the change of
    offset between the two instants. *)
Definition addHours (zone : Zone) (d : Date) (amount : Z) : Date :=
  toLocal zone (toUtc zone d + amount * MS_PER_HOUR).
Definition addDays (d : Date) (amount : Z) : Date := d + amount * MS_PER_DAY.
Definition addWeeks (d : Date) (amount : Z) : Date := addDays d (amount * 7).

Definition startOfDay (d : Date) : Date := d - d mod MS_PER_DAY.
Definition endOfDay (d : Date) : Date := startOfDay d + (MS_PER_DAY - 1).

(** [Date.prototype.getHours], [getMinutes], [getDay] (0 is Sunday; day 0 of
    the time line, 1 January 1970, is a Thursday). *)
Definition getHours (d : Date) : Z := (d mod MS_PER_DAY) / MS_PER_HOUR.
Definition getMinutes (d : Date) : Z := (d mod MS_PER_HOUR) / MS_PER_MINUTE.
Definition getDay (d : Date) : Z := (d / MS_PER_DAY + 4) mod 7.

(** [setMinutes] and [setHours] replace one field and keep the others; a
    value out of the field's range carries over, as in JavaScript. *)
Definition setMinutes (d : Date) (minutes : Z) : Date :=
  d + (minutes - getMinutes d) * MS_PER_MINUTE.
Definition setHours (d : Date) (hours : Z) : Date :=
  d + (hours - getHours d) * MS_PER_HOUR.

(** [Date.prototype.toDateString] is compared for equality only: two dates
    print alike exactly when they fall on the same local calendar day. *)
Definition sameDateString (a b : Date) : bool := a / MS_PER_DAY =? b / MS_PER_DAY.

(** [areIntervalsOverlapping] with its default (non-inclusive) comparison.
    date-fns orders the two ends of each interval before it compares
    (version 2 raised a RangeError on an interval that ends before it
    starts). *)
Definition areIntervalsOverlapping (leftStart leftEnd rightStart rightEnd : Date) : bool :=
  let leftStartTime := Z.min leftStart leftEnd in
  let leftEndTime := Z.max leftStart leftEnd in
  let rightStartTime := Z.min rightStart rightEnd in
  let rightEndTime := Z.max rightStart rightEnd in
  (leftStartTime <? rightEndTime) && (rightStartTime <? leftEndTime).

(** Proleptic Gregorian calendar: day number of a civil date and back
    (months are 1..12 here). *)
Definition daysFromCivil (y m d : Z) : Z :=
  let y' := if m <=? 2 then y - 1 else y in
  let era := y' / 400 in
  let yoe := y' - era * 400 in
  let mp := if 2 <? m then m - 3 else m + 9 in
  let doy := (153 * mp + 2) / 5 + d - 1 in
  let doe := yoe * 365 + yoe / 4 - yoe / 100 + doy in
  era * 146097 + doe - 719468.

Definition civilFromDays (z : Z) : Z * Z * Z :=
  let z' := z + 719468 in
  let era := z' / 146097 in
  let doe := z' - era * 146097 in
  let yoe := (doe - doe / 1460 + doe / 36524 - doe / 146096) / 365 in
  let doy := doe - (365 * yoe + yoe / 4 - yoe / 100) in
  let mp := (5 * doy + 2) / 153 in
  let d := doy - (153 * mp + 2) / 5 + 1 in
  let m := if mp <? 10 then mp + 3 else mp - 9 in
  ((if m <=? 2 then yoe + era * 400 + 1 else yoe + era * 400), m, d).

Definition getFullYear (d : Date) : Z := fst (fst (civilFromDays (d / MS_PER_DAY))).
(** [getMonth] is 0-based, [getDate] is the day of the month. *)
Definition getMonth (d : Date) : Z := snd (fst (civilFromDays (d / MS_PER_DAY))) - 1.
Definition getDate (d : Date) : Z := snd (civilFromDays (d / MS_PER_DAY)).

(** The date with the given year, 0-based month (any integer, carried into
    the year) and day of month (any integer, carried into the month), at
    the time of day of [d]: what [setFullYear(y, m, day)] leaves in [d]. *)
Definition setFullYear (d : Date) (y month day : Z) : Date :=
  (daysFromCivil (y + month / 12) (month mod 12 + 1) 1 + (day - 1)) * MS_PER_DAY
  + d mod MS_PER_DAY.

(** [setMonth(month, day)] keeps the year. *)
Definition setMonth (d : Date) (month day : Z) : Date :=
  setFullYear d (getFullYear d) month day.

(** date-fns [addMonths]: the same day of the month [amount] months later,
    or the last day of that month when it is shorter. *)
Definition addMonths (d : Date) (amount : Z) : Date :=
  let dayOfMonth := getDate d in
  let endOfDesiredMonth := setMonth d (getMonth d + amount + 1) 0 in
  let daysInMonth := getDate endOfDesiredMonth in
  if daysInMonth <=? dayOfMonth then endOfDesiredMonth
  else setFullYear d (getFullYear endOfDesiredMonth) (getMonth endOfDesiredMonth) dayOfMonth.

(** date-fns [endOfMonth]; the parser does not call it, the statements about
    the "end of month" keyword compare with it. *)
Definition endOfMonth (d : Date) : Date :=
  endOfDay (setFullYear d (getFullYear d) (getMonth d + 1) 0).

(** A date from its civil fields, months 1..12. *)
Definition mkDate (y m d hh mm ss ms : Z) : Date :=
  daysFromCivil y m d * MS_PER_DAY + hh * MS_PER_HOUR + mm * MS_PER_MINUTE + ss * 1000 + ms.

End DateFns.

(** The union type ["low" | "medium" | "high" | "urgent"] of both files. *)
Inductive Priority := P_low | P_medium | P_high | P_urgent.

(** ** smart-scheduling.ts *)

Module SmartScheduling.
Import DateFns.

Inductive Confidence := C_high | C_medium | C_low.

Record TaskTimeSlot := mkTask {
  start : Date;
  end_ : Date;
  title : string;
  priority : Priority
}.

Record SchedulingSuggestion := mkSuggestion {
  suggestedTime : Date;
  reason : string;
  confidence : Confidence
}.

Record SchedulingOptions := mkOptions {
  preferredDate : option Date;
  duration : option Z;
  opt_priority : option Priority;
  avoidConflicts : option bool
}.

(** The anonymous [{ start, end }] objects of [findFreeTimeSlots]. *)
Record Slot := mkSlot { slot_start : Date; slot_end : Date }.

Definition DEFAULT_WORKING_HOURS_start : Z := 9.
Definition DEFAULT_WORKING_HOURS_end : Z := 18.
Definition BREAK_DURATION_MINUTES : Z := 15.

(** [(ms / (1000 * 60)) >= minutes], the division being exact. *)
Definition minutesAtLeast (ms minutes : Z) : bool := minutes * MS_PER_MINUTE <=? ms.

(** One turn of the [for (const task of existingTasks)] loop: the state is
    the cursor [currentTime] and the slots pushed so far. *)
Definition gapStep (durationMinutes : Z) (st : Date * list Slot) (task : TaskTimeSlot)
  : Date * list Slot :=
  let '(currentTime, slots) := st in
  let slots' :=
    if currentTime <? start task then
      if minutesAtLeast (start task - currentTime) (durationMinutes + BREAK_DURATION_MINUTES) then
        let slotEnd := addMinutes currentTime durationMinutes in
        if slotEnd <=? start task then slots ++ [mkSlot currentTime slotEnd] else slots
      else slots
    else slots in
  (addMinutes (end_ task) BREAK_DURATION_MINUTES, slots').

Definition workingStartOf (targetDate : Date) : Date :=
  setHours (setMinutes targetDate 0) DEFAULT_WORKING_HOURS_start.
Definition workingEndOf (targetDate : Date) : Date :=
  setHours (setMinutes targetDate 0) DEFAULT_WORKING_HOURS_end.

Definition findFreeTimeSlots (targetDate : Date) (existingTasks : list TaskTimeSlot)
    (durationMinutes : Z) : list Slot :=
  let workingStart := workingStartOf targetDate in
  let workingEnd := workingEndOf targetDate in
  let '(currentTime, slots) := fold_left (gapStep durationMinutes) existingTasks (workingStart, []) in
  if currentTime <? workingEnd then
    if minutesAtLeast (workingEnd - currentTime) durationMinutes then
      let slotEnd := addMinutes currentTime durationMinutes in
      if slotEnd <=? workingEnd then slots ++ [mkSlot currentTime slotEnd] else slots
    else slots
  else slots.

Definition checkForConflicts (proposedTime : Date) (durationMinutes : Z)
    (existingTasks : list TaskTimeSlot) : bool :=
  let proposedEnd := addMinutes proposedTime durationMinutes in
  existsb (fun task => areIntervalsOverlapping proposedTime proposedEnd (start task) (end_ task))
          existingTasks.

(** The [for (let i = 0; i < 24 * 4; i++)] loop with [rounds] turns left. *)
Fixpoint probeFrom (rounds : nat) (currentTime : Date) (durationMinutes : Z)
    (existingTasks : list TaskTimeSlot) : option Date :=
  match rounds with
  | O => None
  | S rounds' =>
      if negb (checkForConflicts currentTime durationMinutes existingTasks)
      then Some currentTime
      else probeFrom rounds' (addMinutes currentTime 15) durationMinutes existingTasks
  end.

Definition getNextAvailableSlot (startTime : Date) (durationMinutes : Z)
    (existingTasks : list TaskTimeSlot) : option Date :=
  probeFrom (24 * 4) startTime durationMinutes existingTasks.

(** date-fns [format(d, 'h:mm a')]: 12-hour clock without padding, minutes
    on two digits, upper-case meridiem. *)
Definition digitChar (n : Z) : ascii := ascii_of_nat (48 + Z.to_nat n).
Definition twoDigits (n : Z) : string :=
  String (digitChar (n / 10)) (String (digitChar (n mod 10)) EmptyString).
Definition format_h_mm_a (d : Date) : string :=
  let hours := getHours d in
  let h := if hours mod 12 =? 0 then 12 else hours mod 12 in
  let hStr := if h <? 10 then String (digitChar h) EmptyString else twoDigits h in
  let a := if hours <? 12 then "AM"%string else "PM"%string in
  (hStr ++ ":" ++ twoDigits (getMinutes d) ++ " " ++ a)%string.

Definition generateSuggestionReason (slot : Slot) (existingTasks : list TaskTimeSlot)
    (priority : Priority) : string :=
  let timeStr := format_h_mm_a (slot_start slot) in
  let hour := getHours (slot_start slot) in
  if (9 <=? hour) && (hour <=? 11) then
    ("Great morning slot at " ++ timeStr ++ " - high productivity time")%string
  else if (14 <=? hour) && (hour <=? 16) then
    ("Good afternoon slot at " ++ timeStr ++ " - focused work time")%string
  else if (11 <=? hour) && (hour <=? 13) then
    ("Lunch hour slot at " ++ timeStr ++ " - good for meetings")%string
  else
    let nearbyTasks :=
      filter (fun task => Z.abs (start task - slot_start slot) <? 2 * 60 * 60 * 1000)
             existingTasks in
    match nearbyTasks with
    | [] => ("Free slot at " ++ timeStr ++ " - no nearby tasks")%string
    | _ :: _ => ("Available slot at " ++ timeStr ++ " - fits well with your schedule")%string
    end.

Definition calculateConfidence (slot : Slot) (existingTasks : list TaskTimeSlot)
    (priority : Priority) : Confidence :=
  let hour := getHours (slot_start slot) in
  if ((9 <=? hour) && (hour <=? 11)) || ((14 <=? hour) && (hour <=? 16)) then C_high
  else if (DEFAULT_WORKING_HOURS_start <=? hour) && (hour <=? DEFAULT_WORKING_HOURS_end)
  then C_medium
  else C_low.

(** [Array.prototype.sort] with the comparator [a.start - b.start]: a
    stable sort by start time. *)
Fixpoint insertByStart (x : TaskTimeSlot) (sorted : list TaskTimeSlot) : list TaskTimeSlot :=
  match sorted with
  | [] => [x]
  | y :: ys => if start x <=? start y then x :: y :: ys else y :: insertByStart x ys
  end.
Definition sortByStart (l : list TaskTimeSlot) : list TaskTimeSlot :=
  fold_right insertByStart [] l.

(** [preferredDate || (now.getHours() < 18 ? now : tomorrow at 9)]: a Date
    object is always truthy. *)
Definition targetDateOf (zone : Zone) (now : Date) (options : SchedulingOptions) : Date :=
  match preferredDate options with
  | Some d => d
  | None =>
      if getHours now <? 18 then now
      else addHours zone (startOfDay (addHours zone now 24)) 9
  end.

Definition tasksOnDateOf (targetDate : Date) (existingTasks : list TaskTimeSlot)
  : list TaskTimeSlot :=
  sortByStart (filter (fun task => sameDateString (start task) targetDate) existingTasks).

Definition fallbackSuggestion (zone : Zone) (targetDate : Date) : SchedulingSuggestion :=
  mkSuggestion (addHours zone (startOfDay (addHours zone targetDate 24)) 9)
               "No available slots today. Suggested for tomorrow morning."
               C_medium.

(** [now] is the value that [new Date()] returns inside the function: the
    source reads the clock itself, the embedding makes the reading an
    argument; [zone] is the time zone of the machine. *)
Definition getSmartSchedulingSuggestions (zone : Zone) (now : Date)
    (existingTasks : list TaskTimeSlot) (options : SchedulingOptions)
  : list SchedulingSuggestion :=
  let duration := match duration options with Some d => d | None => 60 end in
  let priority := match opt_priority options with Some p => p | None => P_medium end in
  let targetDate := targetDateOf zone now options in
  let tasksOnDate := tasksOnDateOf targetDate existingTasks in
  let freeSlots := findFreeTimeSlots targetDate tasksOnDate duration in
  let suggestions :=
    map (fun slot => mkSuggestion (slot_start slot)
                       (generateSuggestionReason slot tasksOnDate priority)
                       (calculateConfidence slot tasksOnDate priority))
        (firstn 5 freeSlots) in
  match suggestions with
  | [] => [fallbackSuggestion zone targetDate]
  | _ :: _ => suggestions
  end.

End SmartScheduling.

(** ** natural-language-parser.ts *)

Module NaturalLanguageParser.
Import DateFns.
Open Scope string_scope.
Open Scope Z_scope.

Record ParsedTaskData := mkParsed {
  title : string;
  description : option string;
  dueDate : option Date;
  deadline : option Date;
  priority : Priority;
  labels : option (list string)
}.

(** *** Characters and the string methods used *)

Definition code (c : ascii) : Z := Z.of_N (N_of_ascii c).
Definition charOf (n : Z) : ascii := ascii_of_N (Z.to_N n).

(** [\d], [\s] (white space and line terminators below 256) and [\w]. *)
Definition isDigit (c : ascii) : bool := (48 <=? code c) && (code c <=? 57).
Definition isSpace (c : ascii) : bool :=
  ((9 <=? code c) && (code c <=? 13)) || (code c =? 32) || (code c =? 160).
Definition isWordChar (c : ascii) : bool :=
  isDigit c || ((65 <=? code c) && (code c <=? 90))
  || ((97 <=? code c) && (code c <=? 122)) || (code c =? 95).

(** [String.prototype.toLowerCase] on Latin-1 code units. *)
Definition toLowerChar (c : ascii) : ascii :=
  if ((65 <=? code c) && (code c <=? 90))
     || ((192 <=? code c) && (code c <=? 222) && negb (code c =? 215))
  then charOf (code c + 32) else c.
Fixpoint toLowerCase (s : string) : string :=
  match s with
  | EmptyString => EmptyString
  | String c s' => String (toLowerChar c) (toLowerCase s')
  end.

(** [String.prototype.includes]. *)
Fixpoint includes (s keyword : string) : bool :=
  prefix keyword s
  || match s with
     | EmptyString => false
     | String _ s' => includes s' keyword
     end.

(** [String.prototype.trim]. *)
Fixpoint skipSpaces (s : string) : string :=
  match s with
  | EmptyString => EmptyString
  | String c s' => if isSpace c then skipSpaces s' else s
  end.
Fixpoint trimEnd (s : string) : string :=
  match s with
  | EmptyString => EmptyString
  | String c s' =>
      match trimEnd s' with
      | EmptyString => if isSpace c then EmptyString else String c EmptyString
      | r => String c r
      end
  end.
Definition trim (s : string) : string := trimEnd (skipSpaces s).

(** [parseInt] on a string of decimal digits. *)
Fixpoint parseDigits (acc : Z) (s : string) : Z :=
  match s with
  | EmptyString => acc
  | String c s' => parseDigits (acc * 10 + (code c - 48)) s'
  end.
Definition parseInt (s : string) : Z := parseDigits 0 s.

(** *** The regular expression [timeRegex]

    [/(?:at\s+)?(\d{1,2})(?::(\d{2}))?\s*(am|pm|AM|PM)?/g].  Everything after
    the hour digits is optional, so a match at a position exists exactly
    when the optional [at\s+] prefix (taken greedily, and only when a digit
    comes after the white space) is followed by a digit; every later
    quantifier is greedy and never has to give characters back. *)

Record TimeMatch := mkTimeMatch {
  group1 : string;            (* hour digits *)
  group2 : option string;     (* minute digits *)
  group3 : option string;     (* meridiem as written *)
  afterMatch : string         (* the input after the match *)
}.

Definition startsWithDigit (s : string) : bool :=
  match s with
  | String c _ => isDigit c
  | EmptyString => false
  end.

(** [(?:at\s+)?]: the input left after the optional prefix. *)
Definition skipAtPrefix (s : string) : string :=
  match s with
  | String a (String t (String c r)) =>
      if Ascii.eqb a "a" && Ascii.eqb t "t" && isSpace c then
        let r' := skipSpaces r in
        if startsWithDigit r' then r' else s
      else s
  | _ => s
  end.

(** [(\d{1,2})] on an input whose first character [d1] is a digit. *)
Definition takeHour (d1 : ascii) (r : string) : string * string :=
  match r with
  | String d2 r' =>
      if isDigit d2 then (String d1 (String d2 EmptyString), r')
      else (String d1 EmptyString, r)
  | EmptyString => (String d1 EmptyString, r)
  end.

(** [(?::(\d{2}))?]. *)
Definition takeMinute (r : string) : option string * string :=
  match r with
  | String colon (String a (String b r')) =>
      if Ascii.eqb colon ":" && isDigit a && isDigit b
      then (Some (String a (String b EmptyString)), r')
      else (None, r)
  | _ => (None, r)
  end.

(** [(am|pm|AM|PM)?]. *)
Definition takeMeridiem (r : string) : option string * string :=
  match r with
  | String a (String b r') =>
      let w := String a (String b EmptyString) in
      if String.eqb w "am" || String.eqb w "pm" || String.eqb w "AM" || String.eqb w "PM"
      then (Some w, r') else (None, r)
  | _ => (None, r)
  end.

(** The match of [timeRegex] that starts at the first character of [s]. *)
Definition matchTimeHere (s : string) : option TimeMatch :=
  match skipAtPrefix s with
  | String d1 r1 =>
      if isDigit d1 then
        let '(g1, r2) := takeHour d1 r1 in
        let '(g2, r3) := takeMinute r2 in
        let '(g3, r4) := takeMeridiem (skipSpaces r3) in
        Some (mkTimeMatch g1 g2 g3 r4)
      else None
  | EmptyString => None
  end.

(** [[...input.matchAll(timeRegex)][0]]: the leftmost match. *)
Fixpoint firstTimeMatch (s : string) : option TimeMatch :=
  match matchTimeHere s with
  | Some m => Some m
  | None =>
      match s with
      | EmptyString => None
      | String _ s' => firstTimeMatch s'
      end
  end.

(** [title.replace(timeRegex, '')]: every match removed, the search going on
    after each match; [skip] counts the characters of the current match
    still to drop. *)
Fixpoint removeTimes (skip : nat) (s : string) : string :=
  match s with
  | EmptyString => EmptyString
  | String c s' =>
      match skip with
      | S k => removeTimes k s'
      | O =>
          match matchTimeHere s with
          | Some m => removeTimes (String.length s' - String.length (afterMatch m)) s'
          | None => String c (removeTimes O s')
          end
      end
  end.

(** *** The regular expressions [\bkeyword\b] with the flags [gi] *)

(** With the flag [i] a pattern letter matches its two ASCII cases only. *)
Definition canonicalize (c : ascii) : ascii :=
  if (97 <=? code c) && (code c <=? 122) then charOf (code c - 32) else c.
Definition eqIgnoreCase (p c : ascii) : bool := Ascii.eqb (canonicalize p) (canonicalize c).

Definition isWordOpt (c : option ascii) : bool :=
  match c with
  | Some c => isWordChar c
  | None => false
  end.
Definition head (s : string) : option ascii :=
  match s with
  | String c _ => Some c
  | EmptyString => None
  end.

(** [\b] between the character before and the character after. *)
Definition wordBoundary (before after : option ascii) : bool :=
  xorb (isWordOpt before) (isWordOpt after).

(** The pattern [keyword] read at the start of [s]: the last character
    read (or [before] for an empty pattern) and the input left. *)
Fixpoint readIgnoreCase (keyword : string) (before : option ascii) (s : string)
  : option (option ascii * string) :=
  match keyword with
  | EmptyString => Some (before, s)
  | String p keyword' =>
      match s with
      | String c s' => if eqIgnoreCase p c then readIgnoreCase keyword' (Some c) s' else None
      | EmptyString => None
      end
  end.

(** [\bkeyword\b] at the start of [s], [before] being the previous character. *)
Definition matchWordHere (keyword : string) (before : option ascii) (s : string) : bool :=
  wordBoundary before (head s)
  && match readIgnoreCase keyword before s with
     | Some (last, rest) => wordBoundary last (head rest)
     | None => false
     end.

(** [\b(k1|k2|...)\b] at the start of [s]: the length of the first
    alternative that matches. *)
Fixpoint matchAnyWordHere (keywords : list string) (before : option ascii) (s : string)
  : option nat :=
  match keywords with
  | nil => None
  | keyword :: rest =>
      if matchWordHere keyword before s then Some (String.length keyword)
      else matchAnyWordHere rest before s
  end.

(** [s.replace(/\b(k1|k2|...)\b/gi, '')]. *)
Fixpoint removeWordsFrom (keywords : list string) (before : option ascii) (skip : nat)
    (s : string) : string :=
  match s with
  | EmptyString => EmptyString
  | String c s' =>
      match skip with
      | S k => removeWordsFrom keywords (Some c) k s'
      | O =>
          match matchAnyWordHere keywords before s with
          | Some n => removeWordsFrom keywords (Some c) (Nat.pred n) s'
          | None => String c (removeWordsFrom keywords (Some c) O s')
          end
      end
  end.
Definition removeWords (keywords : list string) (s : string) : string :=
  removeWordsFrom keywords None O s.
Definition removeWord (keyword : string) (s : string) : string :=
  removeWords (keyword :: nil) s.

(** [s.replace(/\s+/g, ' ')]. *)
Fixpoint collapseFrom (inRun : bool) (s : string) : string :=
  match s with
  | EmptyString => EmptyString
  | String c s' =>
      if isSpace c then
        if inRun then collapseFrom true s' else String " " (collapseFrom true s')
      else String c (collapseFrom false s')
  end.
Definition collapseSpaces (s : string) : string := collapseFrom false s.

(** *** The keyword tables, in declaration order *)

Definition TIME_KEYWORDS : list (string * Z) :=
  [("morning", 9); ("afternoon", 14); ("evening", 18); ("night", 20);
   ("midnight", 0); ("noon", 12)]%list.

Definition DATE_KEYWORDS : list (string * (Date -> Date)) :=
  [("today", fun now => startOfDay now);
   ("tomorrow", fun now => startOfDay (addDays now 1));
   ("yesterday", fun now => startOfDay (addDays now (-1)));
   ("next week", fun now => startOfDay (addWeeks now 1));
   ("next month", fun now => startOfDay (addMonths now 1));
   ("end of week", fun now => endOfDay (addDays now (6 - getDay now)));
   ("end of month", fun now => endOfDay (addMonths now 1))]%list.

Definition PRIORITY_KEYWORDS : list (string * Priority) :=
  [("low", P_low); ("medium", P_medium); ("high", P_high); ("urgent", P_urgent);
   ("important", P_high); ("critical", P_urgent); ("asap", P_urgent)]%list.

Definition LABEL_KEYWORDS : list string :=
  ["work"; "personal"; "urgent"; "meeting"; "call"; "email"; "shopping";
   "health"; "finance"; "home"; "family"; "friends"; "travel"; "project"]%list.

Definition CONNECTING_WORDS : list string :=
  ["at"; "on"; "in"; "for"; "with"; "by"; "due"; "deadline"; "priority"; "label"]%list.

(** [for (const [keyword, v] of Object.entries(TABLE)) if
    (lowerInput.includes(keyword)) { ...; break }]. *)
Definition firstKeyword {A : Type} (table : list (string * A)) (lowerInput : string)
  : option A :=
  option_map snd (find (fun entry => includes lowerInput (fst entry)) table).

(** *** [parseNaturalLanguage] *)

Definition isMeridiem (ampm : option string) (w : string) : bool :=
  match ampm with
  | Some a => String.eqb a w
  | None => false
  end.

(** [adjustedHour] after the two [if]s. *)
Definition adjustedHour (hour : Z) (ampm : option string) : Z :=
  let adjusted := if isMeridiem ampm "pm" && negb (hour =? 12) then hour + 12 else hour in
  if isMeridiem ampm "am" && (hour =? 12) then 0 else adjusted.

Record ParsedTime := mkTime { hour : Z; minute : Z }.

(** [parsedTime] from the first match of [timeRegex]. *)
Definition timeOfMatch (m : TimeMatch) : ParsedTime :=
  let hour := parseInt (group1 m) in
  let minute := match group2 m with Some g => parseInt g | None => 0 end in
  let ampm := option_map toLowerCase (group3 m) in
  mkTime (adjustedHour hour ampm) minute.

Definition parsedDateOf (now : Date) (lowerInput : string) : option Date :=
  option_map (fun dateFn => dateFn now) (firstKeyword DATE_KEYWORDS lowerInput).

Definition parsedTimeOf (input lowerInput : string) : option ParsedTime :=
  match firstTimeMatch input with
  | Some m => Some (timeOfMatch m)
  | None => option_map (fun hour => mkTime hour 0) (firstKeyword TIME_KEYWORDS lowerInput)
  end.

Definition finalDateOf (now : Date) (parsedDate : option Date) (parsedTime : option ParsedTime)
  : option Date :=
  match parsedDate with
  | Some d =>
      match parsedTime with
      | Some t => Some (setHours (setMinutes d (minute t)) (hour t))
      | None => Some d
      end
  | None =>
      match parsedTime with
      | Some t => Some (setHours (setMinutes now (minute t)) (hour t))
      | None => None
      end
  end.

Definition labelsOf (lowerInput : string) : list string :=
  filter (fun label => includes lowerInput label) LABEL_KEYWORDS.

(** The title before the final default: each [replace] is followed by
    [trim]. *)
Definition stripKeywords (keywords : list string) (title : string) : string :=
  fold_left (fun t keyword => trim (removeWord keyword t)) keywords title.

Definition strippedTitle (input : string) : string :=
  let title := trim (removeTimes O input) in
  let title := stripKeywords (map fst DATE_KEYWORDS) title in
  let title := stripKeywords (map fst PRIORITY_KEYWORDS) title in
  let title := stripKeywords LABEL_KEYWORDS title in
  let title := trim (removeWords CONNECTING_WORDS title) in
  trim (collapseSpaces title).

(** [now] is the value that [new Date()] returns at the top of the
    function. *)
Definition parseNaturalLanguage (now : Date) (input : string) : ParsedTaskData :=
  let lowerInput := toLowerCase input in
  let parsedDate := parsedDateOf now lowerInput in
  let parsedTime := parsedTimeOf input lowerInput in
  let finalDate := finalDateOf now parsedDate parsedTime in
  let priority := firstKeyword PRIORITY_KEYWORDS lowerInput in
  let labels := labelsOf lowerInput in
  let title := strippedTitle input in
  let title := match title with EmptyString => "New Task" | _ => title end in
  mkParsed title None finalDate None
           (match priority with Some p => p | None => P_medium end)
           (match labels with nil => None | _ => Some labels end).

End NaturalLanguageParser.

(** ** task-form.tsx: the handler that asks for suggestions *)

Module TaskForm.
Import DateFns SmartScheduling.

(** The fields of a [Task] that the handler reads. *)
Record Task := mkFormTask {
  task_title : string;
  task_dueDate : option Date;
  task_priority : Priority
}.

(** [existingTasks.filter(task => task.dueDate).map(task => ({ start:
    task.dueDate!, end: task.dueDate!, ... }))]: every task with a due date
    becomes a commitment that starts and ends at that instant. *)
Definition taskSlotsOf (existingTasks : list Task) : list TaskTimeSlot :=
  flat_map (fun task =>
              match task_dueDate task with
              | Some due => [mkTask due due (task_title task) (task_priority task)]
              | None => []
              end)
           existingTasks.

(** [generateSchedulingSuggestions(date)]: the value handed to
    [setSchedulingSuggestions]; [formPriority] is [formData.priority]. *)
Definition generateSchedulingSuggestions (zone : Zone) (now : Date) (formPriority : Priority)
    (existingTasks : list Task) (date : option Date) : list SchedulingSuggestion :=
  match date, existingTasks with
  | None, _ => []
  | Some _, [] => []
  | Some d, _ :: _ =>
      getSmartSchedulingSuggestions zone now (taskSlotsOf existingTasks)
        (mkOptions (Some d) None (Some formPriority) None)
  end.

End TaskForm.

(** ** search-bar.tsx: the fuzzy search utility *)

Module SearchBar.
Import NaturalLanguageParser.
Local Open Scope string_scope.
Local Open Scope Z_scope.

(** The [while] loop of [getFuzzyMatchScore]: [text] and [term] are the
    parts still to read, the result is what the loop adds to [matches]. *)
Fixpoint countMatches (text term : string) : nat :=
  match text, term with
  | String c text', String t term' =>
      if Ascii.eqb c t then S (countMatches text' term') else countMatches text' term
  | _, _ => O
  end.

Definition getFuzzyMatchScore (text term : string) : Z :=
  match term, text with
  | EmptyString, _ => 1
  | _, EmptyString => 0
  | _, _ =>
      let textLower := toLowerCase text in
      let termLower := toLowerCase term in
      if String.eqb textLower termLower then 100
      else if prefix termLower textLower then 80
      else if includes textLower termLower then 60
      else
        let matches := countMatches textLower termLower in
        if Nat.eqb matches (String.length termLower)
        then 40 + (Z.of_nat matches / Z.of_nat (String.length termLower)) * 20
        else 0
  end.

(** [sort((a, b) => b.score - a.score)]: a stable sort by descending
    score. *)
Fixpoint insertByScore {T : Type} (x : T * Z) (sorted : list (T * Z)) : list (T * Z) :=
  match sorted with
  | [] => [x]
  | y :: ys => if snd y <=? snd x then x :: y :: ys else y :: insertByScore x ys
  end.
Definition sortByScore {T : Type} (l : list (T * Z)) : list (T * Z) :=
  fold_right insertByScore [] l.

Definition fuzzySearch {T : Type} (items : list T) (searchTerm : string)
    (getSearchableText : T -> string) : list T :=
  match trim searchTerm with
  | EmptyString => items
  | _ =>
      let term := trim (toLowerCase searchTerm) in
      map fst
        (sortByScore
           (filter (fun scored => 0 <? snd scored)
              (map (fun item =>
                      (item, getFuzzyMatchScore (toLowerCase (getSearchableText item)) term))
                   items)))
  end.

End SearchBar.

(** ** validation.ts: titles and names *)

Module Validation.
Import NaturalLanguageParser.
Local Open Scope string_scope.
Local Open Scope Z_scope.

Record ValidationResult := mkResult { isValid : bool; error : option string }.

Definition valid : ValidationResult := mkResult true None.
Definition invalid (message : string) : ValidationResult := mkResult false (Some message).

(** A number in a template string; lengths and bounds are integers. *)
Definition numberToString (n : Z) : string := NilZero.string_of_int (Z.to_int n).

Definition lengthOf (s : string) : Z := Z.of_nat (String.length s).

Definition validateTitle (title : string) : ValidationResult :=
  match title with
  | EmptyString => invalid "Title is required and must be a string"
  | _ =>
      let trimmed := trim title in
      if lengthOf trimmed =? 0 then invalid "Title cannot be empty"
      else if lengthOf trimmed <? 2 then invalid "Title must be at least 2 characters long"
      else if 200 <? lengthOf trimmed
      then invalid "Title must be less than 200 characters long"
      else valid
  end.

Record NameOptions := mkNameOptions {
  minLength : option Z;
  maxLength : option Z;
  fieldName : option string
}.

Definition validateName (name : string) (options : NameOptions) : ValidationResult :=
  let minLength := match minLength options with Some n => n | None => 2 end in
  let maxLength := match maxLength options with Some n => n | None => 50 end in
  let fieldName := match fieldName options with Some f => f | None => "Name" end in
  match name with
  | EmptyString => invalid (fieldName ++ " is required and must be a string")
  | _ =>
      let trimmed := trim name in
      if lengthOf trimmed =? 0 then invalid (fieldName ++ " cannot be empty")
      else if lengthOf trimmed <? minLength
      then invalid (fieldName ++ " must be at least " ++ numberToString minLength
                    ++ " characters long")
      else if maxLength <? lengthOf trimmed
      then invalid (fieldName ++ " must be less than " ++ numberToString maxLength
                    ++ " characters long")
      else valid
  end.

End Validation.

(** * Properties of the scheduling engine *)

Section SchedulingSpec.
Import DateFns SmartScheduling.

(** Two half-open intervals overlap when they share an instant; intervals
    that only touch at an end point share none. *)
Definition intervalsOverlap (aStart aEnd bStart bEnd : Date) : Prop :=
  exists t, (aStart <= t < aEnd) /\ (bStart <= t < bEnd).

(** The open-interval comparison: two intervals overlap when each starts
    strictly before the other ends, so that intervals which only touch at an
    end point do not overlap. *)
Definition openOverlap (aStart aEnd bStart bEnd : Date) : Prop :=
  aStart < bEnd /\ bStart < aEnd.

(** A commitment whose end is not before its start; it may be an instant. *)
Definition validInterval (task : TaskTimeSlot) : Prop := start task <= end_ task.

(** The [k]-th probe of [getNextAvailableSlot]. *)
Definition probeTime (startTime : Date) (k : nat) : Date :=
  addMinutes startTime (15 * Z.of_nat k).

(** A commitment is well formed when it starts before it ends. *)
Definition wellFormed (task : TaskTimeSlot) : Prop := start task < end_ task.

(** Sample data: times of day on Monday 15 January 2024, and commitments of
    that day. *)
Definition jan15 (h m : Z) : Date := mkDate 2024 1 15 h m 0 0.
Definition commitment (h1 m1 h2 m2 : Z) (name : string) : TaskTimeSlot :=
  mkTask (jan15 h1 m1) (jan15 h2 m2) name P_medium.
Definition noOptions : SchedulingOptions := mkOptions None None None None.

(** Sample zones: UTC, and New York in 2024 (UTC-5, and UTC-4 from 10 March
    07:00 UTC to 3 November 06:00 UTC; on the local line the change shows at
    03:00 on 10 March and at 02:00 on 3 November). *)
Definition utcZone : Zone := fixedOffset 0.
Definition newYork2024 : Zone :=
  mkZone
    (fun utc =>
       if utc <? mkDate 2024 3 10 7 0 0 0 then -5 * MS_PER_HOUR
       else if utc <? mkDate 2024 11 3 6 0 0 0 then -4 * MS_PER_HOUR
       else -5 * MS_PER_HOUR)
    (fun local =>
       if local <? mkDate 2024 3 10 3 0 0 0 then -5 * MS_PER_HOUR
       else if local <? mkDate 2024 11 3 2 0 0 0 then -4 * MS_PER_HOUR
       else -5 * MS_PER_HOUR).

(** A day of 2024 booked from 8:00 to 18:00, and the options that prefer
    that day. *)
Definition bookedDay (month day : Z) : list TaskTimeSlot :=
  [mkTask (mkDate 2024 month day 8 0 0 0) (mkDate 2024 month day 18 0 0 0)
          "Workshop" P_medium].
Definition preferDay (month day : Z) : SchedulingOptions :=
  mkOptions (Some (mkDate 2024 month day 0 0 0 0)) None None None.

(** A short commitment inside a long one, in ascending order of start. *)
Definition nestedCommitments : list TaskTimeSlot :=
  [commitment 9 0 17 0 "Workshop"; commitment 10 0 10 30 "Stand-up"].

(** A commitment that ends before the working window opens, and a late
    commitment after one that runs past the end of the window. *)
Definition earlyCommitment : list TaskTimeSlot := [commitment 6 0 6 30 "Gym"].
Definition lateCommitments : list TaskTimeSlot :=
  [commitment 8 0 19 0 "Workshop"; commitment 22 0 23 0 "Call"].

(** Commitments in ascending order that do not overlap: each one ends at or
    before the start of every later one. *)
Fixpoint disjointAscending (l : list TaskTimeSlot) : Prop :=
  match l with
  | [] => True
  | t :: rest =>
      wellFormed t /\ (forall u, In u rest -> end_ t <= start u) /\ disjointAscending rest
  end.

(** Commitments in ascending order where each one ends at or before the
    start of every later one; a commitment may be a single instant. *)
Fixpoint chained (l : list TaskTimeSlot) : Prop :=
  match l with
  | [] => True
  | t :: rest =>
      start t <= end_ t /\ (forall u, In u rest -> end_ t <= start u) /\ chained rest
  end.

(** A slot keeps the break from a commitment when the commitment ends at
    least [BREAK_DURATION_MINUTES] before the slot starts, or starts at least
    that long after the slot ends. *)
Definition keepsBreak (s : Slot) (u : TaskTimeSlot) : Prop :=
  addMinutes (end_ u) BREAK_DURATION_MINUTES <= slot_start s
  \/ addMinutes (slot_end s) BREAK_DURATION_MINUTES <= start u.

(** Slots in chronological order that do not overlap each other. *)
Definition slotsAscending (l : list Slot) : Prop :=
  StronglySorted (fun a b => slot_end a <= slot_start b) l.

(** Commitments in ascending order of start. *)
Definition ascendingByStart (l : list TaskTimeSlot) : Prop :=
  StronglySorted (fun a b => start a <= start b) l.

(** A meeting and a task due at an instant, chained. *)
Definition mixedCommitments : list TaskTimeSlot :=
  [commitment 10 0 11 0 "Meeting"; commitment 14 0 14 0 "Report"].

(** The length of the working window, in minutes. *)
Definition WORKING_MINUTES : Z := 540.

End SchedulingSpec.

Section ParserSpec.
Import DateFns NaturalLanguageParser.


(** A whole-word occurrence of [keyword] in [s]: somewhere in [s] the
    keyword is read between two word boundaries ([before] is the character
    in front of [s]). *)
Fixpoint occursAsWordFrom (keyword : string) (before : option ascii) (s : string) : bool :=
  matchWordHere keyword before s
  || match s with
     | EmptyString => false
     | String c s' => occursAsWordFrom keyword (Some c) s'
     end.
Definition occursAsWord (keyword s : string) : bool := occursAsWordFrom keyword None s.

(** A keyword made of lower-case ASCII letters only. *)
Definition isLowerLetter (c : ascii) : bool := (97 <=? code c) && (code c <=? 122).
Fixpoint lowerWord (s : string) : bool :=
  match s with
  | EmptyString => true
  | String c s' => isLowerLetter c && lowerWord s'
  end.

(** Every character of [s] passes the test [p]. *)
Fixpoint allChars (p : ascii -> bool) (s : string) : bool :=
  match s with
  | EmptyString => true
  | String c s' => p c && allChars p s'
  end.

(** [s] holds no decimal digit. *)
Definition noDigit (s : string) : bool := allChars (fun c => negb (isDigit c)) s.

(** White space in [s] comes only as single blanks between other
    characters: no white space at either end, none next to another, and no
    white-space character other than the blank.  [afterSpace] tells whether
    the character in front of [s] was white space (or [s] is the start). *)
Fixpoint singleSpacedFrom (afterSpace : bool) (s : string) : bool :=
  match s with
  | EmptyString => negb afterSpace
  | String c s' =>
      if isSpace c
      then Ascii.eqb c " " && negb afterSpace && singleSpacedFrom true s'
      else singleSpacedFrom false s'
  end.
Definition singleSpaced (s : string) : bool := singleSpacedFrom true s.

(** The same without the condition on the end of [s]. *)
Fixpoint spacedFrom (afterSpace : bool) (s : string) : bool :=
  match s with
  | EmptyString => true
  | String c s' =>
      if isSpace c
      then Ascii.eqb c " " && negb afterSpace && spacedFrom true s'
      else spacedFrom false s'
  end.


End ParserSpec.

Section SearchSpec.
Import NaturalLanguageParser SearchBar.


(** The score that [fuzzySearch] gives an item. *)
Definition scoreOf {T : Type} (getSearchableText : T -> string) (searchTerm : string)
    (item : T) : Z :=
  getFuzzyMatchScore (toLowerCase (getSearchableText item)) (trim (toLowerCase searchTerm)).

End SearchSpec.

Section SchedulingFacts.
Import DateFns SmartScheduling.

Lemma overlapping_iff (a b s e : Date) :
  a < b -> s < e ->
  (areIntervalsOverlapping a b s e = true <-> intervalsOverlap a b s e).
Proof.
  intros Hab Hse. unfold areIntervalsOverlapping, intervalsOverlap.
  rewrite andb_true_iff, !Z.ltb_lt. split.
  - intros [H1 H2]. exists (Z.max a s). lia.
  - intros [t [H1 H2]]. lia.
Qed.

Lemma addMinutes_lt (t d : Z) : 0 < d -> t < addMinutes t d.
Proof. unfold addMinutes, MS_PER_MINUTE. lia. Qed.

Lemma probeTime_succ (c : Date) (k : nat) :
  probeTime (addMinutes c 15) k = probeTime c (S k).
Proof. unfold probeTime, addMinutes. lia. Qed.

Lemma probeTime_zero (c : Date) : probeTime c 0 = c.
Proof. unfold probeTime, addMinutes. simpl. lia. Qed.

Lemma probeFrom_Some (d : Z) (tasks : list TaskTimeSlot) (n : nat) :
  forall c t,
    probeFrom n c d tasks = Some t <->
    exists k, (k < n)%nat /\ t = probeTime c k
              /\ checkForConflicts t d tasks = false
              /\ forall j, (j < k)%nat -> checkForConflicts (probeTime c j) d tasks = true.
Proof.
  induction n as [|n IH]; intros c t; simpl.
  - split; [discriminate | intros [k [Hk _]]; lia].
  - destruct (checkForConflicts c d tasks) eqn:Hc; simpl.
    + rewrite IH. split.
      * intros [k [Hk [Ht [Hfree Hbusy]]]]. exists (S k).
        rewrite <- probeTime_succ. repeat split; try lia; try assumption.
        intros [|j] Hj; [now rewrite probeTime_zero|].
        rewrite <- probeTime_succ. apply Hbusy. lia.
      * intros [[|k] [Hk [Ht [Hfree Hbusy]]]].
        -- rewrite probeTime_zero in Ht. subst t. congruence.
        -- exists k. rewrite probeTime_succ. repeat split; try lia; try assumption.
           intros j Hj. rewrite probeTime_succ. apply Hbusy. lia.
    + split.
      * intros [= <-]. exists O. rewrite probeTime_zero.
        repeat split; try lia; try assumption.
      * intros [[|k] [Hk [Ht [Hfree Hbusy]]]].
        -- rewrite probeTime_zero in Ht. now subst.
        -- specialize (Hbusy O ltac:(lia)). rewrite probeTime_zero in Hbusy. congruence.
Qed.

Lemma probeFrom_None (d : Z) (tasks : list TaskTimeSlot) (n : nat) :
  forall c,
    probeFrom n c d tasks = None <->
    forall k, (k < n)%nat -> checkForConflicts (probeTime c k) d tasks = true.
Proof.
  induction n as [|n IH]; intros c; simpl.
  - split; [intros _ k Hk; lia | reflexivity].
  - destruct (checkForConflicts c d tasks) eqn:Hc; simpl.
    + rewrite IH. split.
      * intros H [|k] Hk; [now rewrite probeTime_zero|].
        rewrite <- probeTime_succ. apply H. lia.
      * intros H k Hk. rewrite probeTime_succ. apply H. lia.
    + split; [discriminate|].
      intros H. specialize (H O ltac:(lia)). rewrite probeTime_zero in H. congruence.
Qed.

Lemma covered_conflicts (p d : Z) (tasks : list TaskTimeSlot) :
  0 < d ->
  (exists task, In task tasks /\ start task <= p < end_ task) ->
  checkForConflicts p d tasks = true.
Proof.
  intros Hd [task [Hin Hcov]]. unfold checkForConflicts.
  apply existsb_exists. exists task. split; [assumption|].
  unfold areIntervalsOverlapping. pose proof (addMinutes_lt p d Hd).
  apply andb_true_iff. rewrite !Z.ltb_lt. lia.
Qed.

Lemma startOfDay_multiple (d : Date) : startOfDay d = MS_PER_DAY * (d / MS_PER_DAY).
Proof.
  unfold startOfDay. pose proof (Z.div_mod d MS_PER_DAY) as H.
  unfold MS_PER_DAY in *. lia.
Qed.

Lemma addHours_fixedOffset (offset d amount : Z) :
  addHours (fixedOffset offset) d amount = d + amount * MS_PER_HOUR.
Proof. unfold addHours, toLocal, toUtc, fixedOffset. cbn. lia. Qed.

Lemma nine_next_day (offset : Z) (d : Date) :
  let t := addHours (fixedOffset offset)
             (startOfDay (addHours (fixedOffset offset) d 24)) 9 in
  t / MS_PER_DAY = d / MS_PER_DAY + 1 /\ t mod MS_PER_DAY = 9 * MS_PER_HOUR.
Proof.
  cbv zeta. rewrite !addHours_fixedOffset. rewrite startOfDay_multiple.
  assert (Hq : (d + 24 * MS_PER_HOUR) / MS_PER_DAY = d / MS_PER_DAY + 1).
  { unfold MS_PER_HOUR, MS_PER_DAY.
    replace (d + 24 * 3600000) with (d + 1 * 86400000) by lia.
    rewrite Z.div_add by lia. reflexivity. }
  rewrite Hq. unfold MS_PER_DAY, MS_PER_HOUR. split.
  - symmetry. apply (Z.div_unique_pos _ _ _ (9 * 3600000)); lia.
  - symmetry. apply (Z.mod_unique_pos _ _ (d / 86400000 + 1)); lia.
Qed.

Lemma existsb_false {A : Type} (f : A -> bool) (l : list A) :
  existsb f l = false <-> forall x, In x l -> f x = false.
Proof.
  induction l as [|a l IH]; simpl.
  - split; [intros _ x [] | reflexivity].
  - rewrite orb_false_iff, IH. split.
    + intros [Ha Hl] x [<- | Hx]; auto.
    + intros H. split; [apply H; now left | intros x Hx; apply H; now right].
Qed.

Lemma disjointAscending_split (l1 : list TaskTimeSlot) (t : TaskTimeSlot)
    (l2 : list TaskTimeSlot) :
  disjointAscending (l1 ++ t :: l2) ->
  wellFormed t
  /\ (forall u, In u l1 -> end_ u <= start t)
  /\ (forall v, In v l2 -> end_ t <= start v).
Proof.
  induction l1 as [|a l1 IH]; simpl.
  - intros [Hwf [Hafter _]]. repeat split; auto. intros u [].
  - intros [Hwf [Hafter Hrest]]. destruct (IH Hrest) as [Ht [Hbefore Hlater]].
    repeat split; auto.
    intros u [<- | Hu]; [|now apply Hbefore].
    apply Hafter. apply in_or_app. right. now left.
Qed.

Lemma disjointAscending_wellFormed (l : list TaskTimeSlot) :
  disjointAscending l -> forall u, In u l -> wellFormed u.
Proof.
  induction l as [|a l IH]; simpl; [intros _ u [] |].
  intros [Hwf [_ Hrest]] u [<- | Hu]; auto.
Qed.

(** The loop of [findFreeTimeSlots] over disjoint ascending commitments:
    the cursor stays behind the end of every commitment already visited, and
    every slot pushed is free of conflicts. *)
Lemma gap_loop_invariant (d : Z) (Hd : 0 < d) :
  forall (rest visited : list TaskTimeSlot) (c : Date) (slots : list Slot),
    disjointAscending (visited ++ rest) ->
    (forall u, In u visited -> end_ u <= c) ->
    (forall s, In s slots -> checkForConflicts (slot_start s) d (visited ++ rest) = false) ->
    (forall u, In u (visited ++ rest) ->
       end_ u <= fst (fold_left (gapStep d) rest (c, slots)))
    /\ (forall s, In s (snd (fold_left (gapStep d) rest (c, slots))) ->
          checkForConflicts (slot_start s) d (visited ++ rest) = false).
Proof.
  induction rest as [|t rest IH]; intros visited c slots Hdis Hvis Hslots.
  - simpl. rewrite app_nil_r in *. split; assumption.
  - simpl fold_left.
    destruct (disjointAscending_split _ _ _ Hdis) as [Hwf [Hbefore Hlater]].
    unfold wellFormed in Hwf.
    assert (Happ : visited ++ t :: rest = (visited ++ [t]) ++ rest)
      by (rewrite <- app_assoc; reflexivity).
    unfold gapStep at 2. cbv zeta.
    rewrite Happ in *.
    apply IH; try assumption.
    + intros u Hu. apply in_app_or in Hu.
      unfold addMinutes, BREAK_DURATION_MINUTES, MS_PER_MINUTE.
      destruct Hu as [Hu | [<- | []]]; [specialize (Hbefore u Hu)|]; lia.
    + assert (Hnew : c < start t -> addMinutes c d <= start t ->
                     checkForConflicts c d ((visited ++ [t]) ++ rest) = false).
      { intros Hlt Hfit. unfold checkForConflicts. apply existsb_false.
        intros u Hu. unfold areIntervalsOverlapping. cbv zeta.
        apply andb_false_iff. rewrite !Z.ltb_ge.
        pose proof (addMinutes_lt c d Hd) as Hpos.
        pose proof (disjointAscending_wellFormed _ Hdis u Hu) as Hu_wf.
        unfold wellFormed in Hu_wf.
        rewrite <- Happ in Hu. apply in_app_or in Hu.
        destruct Hu as [Hu | [<- | Hu]].
        - left. specialize (Hvis u Hu). lia.
        - right. lia.
        - right. specialize (Hlater u Hu). lia. }
      destruct (c <? start t) eqn:Hlt; [|assumption].
      destruct (minutesAtLeast _ _); [|assumption].
      destruct (addMinutes c d <=? start t) eqn:Hfit; [|assumption].
      intros s Hs. apply in_app_or in Hs. destruct Hs as [Hs | [<- | []]].
      * now apply Hslots.
      * simpl. apply Hnew; [now apply Z.ltb_lt | now apply Z.leb_le].
Qed.

(** What [findFreeTimeSlots] does guarantee: on commitments that are sorted
    and do not overlap, none of its slots conflicts with a commitment. *)
Lemma free_slots_conflict_free_when_disjoint :
  forall (targetDate : Date) (tasks : list TaskTimeSlot) (d : Z),
    0 < d ->
    disjointAscending tasks ->
    forall s, In s (findFreeTimeSlots targetDate tasks d) ->
              checkForConflicts (slot_start s) d tasks = false.
Proof.
  intros targetDate tasks d Hd Hdis s.
  unfold findFreeTimeSlots.
  destruct (gap_loop_invariant d Hd tasks [] (workingStartOf targetDate) [] Hdis)
    as [Hcursor Hslots]; [intros u [] | intros x [] |].
  simpl app in *.
  destruct (fold_left (gapStep d) tasks (workingStartOf targetDate, [])) as [c slots].
  simpl in Hcursor, Hslots.
  assert (Hlast : In s (slots ++ [mkSlot c (addMinutes c d)]) ->
                  checkForConflicts (slot_start s) d tasks = false).
  { intros Hs. apply in_app_or in Hs. destruct Hs as [Hs | [<- | []]]; [now apply Hslots|].
    simpl. unfold checkForConflicts. apply existsb_false. intros u Hu.
    unfold areIntervalsOverlapping. cbv zeta. apply andb_false_iff. left.
    apply Z.ltb_ge. specialize (Hcursor u Hu).
    pose proof (addMinutes_lt c d Hd) as Hpos.
    pose proof (disjointAscending_wellFormed _ Hdis u Hu) as Hu_wf.
    unfold wellFormed in Hu_wf. lia. }
  destruct (c <? workingEndOf targetDate); [|apply Hslots].
  destruct (minutesAtLeast _ _); [|apply Hslots].
  destruct (addMinutes c d <=? workingEndOf targetDate); [apply Hlast | apply Hslots].
Qed.

End SchedulingFacts.

Section SchedulingTheorems.
Import DateFns SmartScheduling.

(** C2. For a positive duration and every list of commitments,
    [checkForConflicts] answers true exactly when the proposed interval from
    [proposedStart] to [proposedStart + duration] overlaps some commitment in
    the open-interval comparison (each starts strictly before the other
    ends), the two ends of a commitment taken in order; for commitments that
    do not end before they start that is the comparison with their start and
    end, and for commitments that start before they end it says that the two
    half-open intervals share an instant.  A commitment that is an instant
    conflicts exactly when it lies strictly inside the proposal.  A proposal
    identical to a commitment conflicts, and a commitment that ends exactly
    where the proposal starts never counts as a conflict (so against that
    commitment alone the answer is false). *)
Theorem checkForConflicts_iff_overlap :
  forall (proposedStart : Date) (durationMinutes : Z) (tasks : list TaskTimeSlot),
    0 < durationMinutes ->
    let proposedEnd := addMinutes proposedStart durationMinutes in
    (checkForConflicts proposedStart durationMinutes tasks = true <->
     exists task, In task tasks /\
       openOverlap proposedStart proposedEnd
                   (Z.min (start task) (end_ task)) (Z.max (start task) (end_ task)))
    /\ (Forall validInterval tasks ->
        (checkForConflicts proposedStart durationMinutes tasks = true <->
         exists task, In task tasks /\
           openOverlap proposedStart proposedEnd (start task) (end_ task)))
    /\ (Forall wellFormed tasks ->
        (checkForConflicts proposedStart durationMinutes tasks = true <->
         exists task, In task tasks /\
           intervalsOverlap proposedStart proposedEnd (start task) (end_ task)))
    /\ (forall task, start task = end_ task ->
          (checkForConflicts proposedStart durationMinutes [task] = true <->
           proposedStart < start task < proposedEnd))
    /\ (forall task, In task tasks ->
          start task = proposedStart ->
          end_ task = proposedEnd ->
          checkForConflicts proposedStart durationMinutes tasks = true)
    /\ (forall task, In task tasks ->
          validInterval task ->
          end_ task = proposedStart ->
          checkForConflicts proposedStart durationMinutes [task] = false
          /\ forall others,
               checkForConflicts proposedStart durationMinutes (task :: others)
               = checkForConflicts proposedStart durationMinutes others).
Proof.
  intros ps d tasks Hd pe.
  assert (Hlt : ps < pe) by (subst pe; now apply addMinutes_lt).
  assert (Hone : forall task,
             areIntervalsOverlapping ps pe (start task) (end_ task) = true <->
             openOverlap ps pe (Z.min (start task) (end_ task))
                         (Z.max (start task) (end_ task))).
  { intros task. unfold areIntervalsOverlapping, openOverlap. cbv zeta.
    rewrite andb_true_iff, !Z.ltb_lt. lia. }
  assert (Hiff : checkForConflicts ps d tasks = true <->
                 exists task, In task tasks /\
                   openOverlap ps pe (Z.min (start task) (end_ task))
                               (Z.max (start task) (end_ task))).
  { unfold checkForConflicts. fold pe. rewrite existsb_exists. split.
    - intros [task [Hin Hov]]. exists task. split; [assumption | now apply Hone].
    - intros [task [Hin Hov]]. exists task. split; [assumption | now apply Hone]. }
  split; [exact Hiff|]. split; [|split; [|split; [|split]]].
  - intros Hvalid. rewrite Forall_forall in Hvalid. rewrite Hiff. split.
    + intros [task [Hin Hov]]. exists task. split; [assumption|].
      specialize (Hvalid task Hin). unfold validInterval, openOverlap in *. lia.
    + intros [task [Hin Hov]]. exists task. split; [assumption|].
      specialize (Hvalid task Hin). unfold validInterval, openOverlap in *. lia.
  - intros Hwf. rewrite Forall_forall in Hwf. rewrite Hiff. split.
    + intros [task [Hin Hov]]. exists task. split; [assumption|].
      specialize (Hwf task Hin). unfold wellFormed, openOverlap in *.
      exists (Z.max ps (start task)). lia.
    + intros [task [Hin [t Ht]]]. exists task. split; [assumption|].
      specialize (Hwf task Hin). unfold wellFormed, openOverlap in *. lia.
  - intros task Hpoint. unfold checkForConflicts. fold pe. cbn [existsb].
    rewrite orb_false_r, Hone. unfold openOverlap. lia.
  - intros task Hin Hs He. apply Hiff. exists task. split; [assumption|].
    unfold openOverlap. lia.
  - intros task Hin Hvalid He. unfold validInterval in Hvalid.
    assert (Hno : areIntervalsOverlapping ps pe (start task) (end_ task) = false).
    { destruct (areIntervalsOverlapping ps pe (start task) (end_ task)) eqn:Hov;
        [|reflexivity].
      apply Hone in Hov. unfold openOverlap in Hov. lia. }
    split.
    + unfold checkForConflicts. fold pe. cbn [existsb]. now rewrite Hno.
    + intros others. unfold checkForConflicts. fold pe. cbn [existsb]. now rewrite Hno.
Qed.

(** C4. [getNextAvailableSlot] returns the earliest of the 96 probe times
    [startTime + k * 15 min], [k < 96], at which [checkForConflicts] is false,
    and nothing when all 96 probes conflict; in particular it returns nothing
    when every probe time lies inside some commitment. *)
Theorem getNextAvailableSlot_earliest_probe :
  forall (startTime : Date) (durationMinutes : Z) (tasks : list TaskTimeSlot),
    0 < durationMinutes ->
    (forall t,
        getNextAvailableSlot startTime durationMinutes tasks = Some t <->
        exists k, (k < 96)%nat /\ t = probeTime startTime k
                  /\ checkForConflicts t durationMinutes tasks = false
                  /\ forall j, (j < k)%nat ->
                       checkForConflicts (probeTime startTime j) durationMinutes tasks = true)
    /\ (getNextAvailableSlot startTime durationMinutes tasks = None <->
        forall k, (k < 96)%nat ->
          checkForConflicts (probeTime startTime k) durationMinutes tasks = true)
    /\ ((forall k, (k < 96)%nat ->
           exists task, In task tasks
                        /\ start task <= probeTime startTime k < end_ task) ->
        getNextAvailableSlot startTime durationMinutes tasks = None).
Proof.
  intros c d tasks Hd. unfold getNextAvailableSlot.
  change (24 * 4)%nat with 96%nat.
  split; [|split].
  - intros t. apply probeFrom_Some.
  - apply probeFrom_None.
  - intros Hcov. apply probeFrom_None. intros k Hk.
    apply covered_conflicts; auto.
Qed.

(** The witness of C2: one commitment from 9:00 to 10:00 against a proposal
    of the same hour and a proposal that starts at 10:00, and a task due at
    the instant 10:00 against a proposal from 9:30 to 10:30. *)
Lemma checkForConflicts_iff_overlap_witness :
  checkForConflicts (jan15 9 0) 60 [commitment 9 0 10 0 "Review"] = true
  /\ checkForConflicts (jan15 10 0) 60 [commitment 9 0 10 0 "Review"] = false
  /\ checkForConflicts (jan15 9 30) 60 [commitment 10 0 10 0 "Report"] = true.
Proof.
  split; [|split].
  - apply (proj1 (proj2 (proj2 (proj2 (proj2
             (checkForConflicts_iff_overlap
                (jan15 9 0) 60 [commitment 9 0 10 0 "Review"] eq_refl)))))
                 (commitment 9 0 10 0 "Review"));
      [now left | reflexivity | vm_compute; reflexivity].
  - apply (proj2 (proj2 (proj2 (proj2 (proj2
             (checkForConflicts_iff_overlap
                (jan15 10 0) 60 [commitment 9 0 10 0 "Review"] eq_refl)))))
                 (commitment 9 0 10 0 "Review"));
      [now left | vm_compute; discriminate | reflexivity].
  - apply (proj1 (proj2 (proj2 (proj2
             (checkForConflicts_iff_overlap
                (jan15 9 30) 60 [commitment 10 0 10 0 "Report"] eq_refl))))
                 (commitment 10 0 10 0 "Report") eq_refl).
    vm_compute. split; reflexivity.
Defined.

(** The witness of C4: one commitment that covers the 24 hours probed. *)
Lemma getNextAvailableSlot_earliest_probe_witness :
  getNextAvailableSlot (jan15 9 0) 60
    [mkTask (jan15 9 0) (mkDate 2024 1 16 9 0 0 0) "Conference" P_high]
  = None.
Proof.
  apply (getNextAvailableSlot_earliest_probe (jan15 9 0) 60 _ eq_refl).
  intros k Hk. eexists. split; [now left|].
  unfold probeTime, addMinutes, MS_PER_MINUTE. simpl start. simpl end_.
  change (jan15 9 0) with 1705309200000.
  change (mkDate 2024 1 16 9 0 0 0) with 1705395600000.
  lia.
Defined.

(** C3, failing input.  In New York the fallback for Saturday 9 March 2024,
    the day before the clocks go forward, is 10:00 on 10 March, and the
    fallback for Sunday 3 November 2024, the day the clocks go back, is 8:00
    on 3 November itself, both under the text "Suggested for tomorrow
    morning": the code adds 24 and 9 elapsed hours around a local midnight.
    In a zone without daylight saving the same day gives 9:00 on 10 March. *)
Theorem fallback_misses_nine_across_daylight_saving :
  findFreeTimeSlots (mkDate 2024 3 9 0 0 0 0) (bookedDay 3 9) 60 = []
  /\ getSmartSchedulingSuggestions newYork2024 (mkDate 2024 3 1 12 0 0 0)
       (bookedDay 3 9) (preferDay 3 9)
     = [mkSuggestion (mkDate 2024 3 10 10 0 0 0)
          "No available slots today. Suggested for tomorrow morning." C_medium]
  /\ findFreeTimeSlots (mkDate 2024 11 3 0 0 0 0) (bookedDay 11 3) 60 = []
  /\ getSmartSchedulingSuggestions newYork2024 (mkDate 2024 3 1 12 0 0 0)
       (bookedDay 11 3) (preferDay 11 3)
     = [mkSuggestion (mkDate 2024 11 3 8 0 0 0)
          "No available slots today. Suggested for tomorrow morning." C_medium]
  /\ getSmartSchedulingSuggestions utcZone (mkDate 2024 3 1 12 0 0 0)
       (bookedDay 3 9) (preferDay 3 9)
     = [mkSuggestion (mkDate 2024 3 10 9 0 0 0)
          "No available slots today. Suggested for tomorrow morning." C_medium].
Proof.
  repeat split; vm_compute; reflexivity.
Qed.

(** X22. In every zone [getSmartSchedulingSuggestions] returns between one
    and five suggestions, and when [findFreeTimeSlots] finds no slot on the
    target day the result is the single fallback suggestion, with confidence
    medium and the fixed text, at the time that [addHours] reaches 9 hours
    after the local midnight of the day 24 hours after the target date; in a
    zone with a fixed offset that time is 9:00 on the day after the target
    day. *)
Theorem suggestions_between_one_and_five :
  forall (zone : Zone) (now : Date) (tasks : list TaskTimeSlot)
         (options : SchedulingOptions),
    let targetDate := targetDateOf zone now options in
    let requested := match duration options with Some d => d | None => 60 end in
    let result := getSmartSchedulingSuggestions zone now tasks options in
    (1 <= List.length result <= 5)%nat
    /\ (findFreeTimeSlots targetDate (tasksOnDateOf targetDate tasks) requested = [] ->
        exists s,
          result = [s]
          /\ suggestedTime s = addHours zone (startOfDay (addHours zone targetDate 24)) 9
          /\ confidence s = C_medium
          /\ reason s = "No available slots today. Suggested for tomorrow morning."%string
          /\ (forall offset, zone = fixedOffset offset ->
                suggestedTime s / MS_PER_DAY = targetDate / MS_PER_DAY + 1
                /\ suggestedTime s mod MS_PER_DAY = 9 * MS_PER_HOUR
                /\ getHours (suggestedTime s) = 9 /\ getMinutes (suggestedTime s) = 0)).
Proof.
  intros zone now tasks options targetDate requested result.
  subst result. unfold getSmartSchedulingSuggestions.
  fold targetDate. fold requested.
  set (tasksOnDate := tasksOnDateOf targetDate tasks).
  set (freeSlots := findFreeTimeSlots targetDate tasksOnDate requested).
  split.
  - pose proof (firstn_le_length 5 freeSlots) as Hle.
    destruct (firstn 5 freeSlots) as [|slot rest]; cbn [map List.length] in *.
    + lia.
    + rewrite length_map. lia.
  - intros Hnil. rewrite Hnil. simpl.
    exists (fallbackSuggestion zone targetDate). split; [reflexivity|].
    unfold fallbackSuggestion. cbn [suggestedTime confidence reason].
    split; [reflexivity|]. split; [reflexivity|]. split; [reflexivity|].
    intros offset ->.
    destruct (nine_next_day offset targetDate) as [Hday Htime].
    set (t := addHours (fixedOffset offset)
                (startOfDay (addHours (fixedOffset offset) targetDate 24)) 9) in *.
    repeat split; try assumption.
    + unfold getHours. rewrite Htime. reflexivity.
    + unfold getMinutes.
      assert (Ht : t = MS_PER_DAY * (t / MS_PER_DAY) + 9 * MS_PER_HOUR).
      { rewrite <- Htime. apply Z.div_mod. unfold MS_PER_DAY. lia. }
      rewrite Ht. unfold MS_PER_DAY, MS_PER_HOUR, MS_PER_MINUTE.
      replace (86400000 * (t / 86400000) + 9 * 3600000)
        with (0 + (24 * (t / 86400000) + 9) * 3600000) by lia.
      rewrite Z.mod_add by lia. reflexivity.
Qed.

(** The witness of X22: a day booked from 8:00 to 18:00 leaves no slot. *)
Lemma suggestions_between_one_and_five_witness :
  exists s,
    getSmartSchedulingSuggestions utcZone (jan15 0 0) [commitment 8 0 18 0 "Workshop"]
      noOptions = [s]
    /\ suggestedTime s = mkDate 2024 1 16 9 0 0 0
    /\ confidence s = C_medium.
Proof.
  destruct (suggestions_between_one_and_five
              utcZone (jan15 0 0) [commitment 8 0 18 0 "Workshop"] noOptions) as [_ H].
  destruct (H eq_refl) as [s [Hs [_ [Hc _]]]].
  exists s. split; [exact Hs|]. split; [|exact Hc].
  vm_compute in Hs. injection Hs as <-. reflexivity.
Defined.

(** C10, as the claim states it: the output would be a function of the
    commitments and the options alone.  It is not: the function reads the
    clock, and two calls with the same arguments on two different days
    differ. *)
Lemma suggestions_depend_on_the_clock :
  getSmartSchedulingSuggestions utcZone (jan15 10 0) [] noOptions
  <> getSmartSchedulingSuggestions utcZone (mkDate 2024 1 16 10 0 0 0) [] noOptions.
Proof.
  vm_compute. intros H. discriminate H.
Qed.

(** C10, amended.  Two calls with the same commitments, the same options and
    the same clock reading give the same output, and when the options carry a
    preferred date the output does not depend on the clock reading at all. *)
Theorem suggestions_deterministic_given_clock :
  forall (zone : Zone) (now1 now2 : Date) (tasks : list TaskTimeSlot)
         (options : SchedulingOptions),
    (now1 = now2 \/ preferredDate options <> None) ->
    getSmartSchedulingSuggestions zone now1 tasks options
    = getSmartSchedulingSuggestions zone now2 tasks options.
Proof.
  intros zone now1 now2 tasks options [-> | Hpref]; [reflexivity|].
  unfold getSmartSchedulingSuggestions, targetDateOf.
  destruct (preferredDate options) as [d|]; [reflexivity | congruence].
Qed.

(** The witness of C10: a preferred date, two different clock readings. *)
Lemma suggestions_deterministic_given_clock_witness :
  getSmartSchedulingSuggestions utcZone (jan15 10 0) []
    (mkOptions (Some (mkDate 2024 1 20 0 0 0 0)) None None None)
  = getSmartSchedulingSuggestions utcZone (mkDate 2024 1 16 19 0 0 0) []
    (mkOptions (Some (mkDate 2024 1 20 0 0 0 0)) None None None).
Proof.
  apply suggestions_deterministic_given_clock. right. simpl. discriminate.
Defined.

(** C1, failing input.  A short commitment inside a long one, sorted by
    start: the cursor moves back to the end of the short one, and the slot
    emitted there lies inside the long commitment, so [checkForConflicts]
    reports a conflict for it. *)
Theorem free_slot_inside_enclosing_commitment :
  forall zone : Zone,
    Forall wellFormed nestedCommitments
    /\ sortByStart nestedCommitments = nestedCommitments
    /\ findFreeTimeSlots (jan15 0 0) nestedCommitments 60
       = [mkSlot (jan15 10 45) (jan15 11 45)]
    /\ checkForConflicts (jan15 10 45) 60 nestedCommitments = true
    /\ map suggestedTime
           (getSmartSchedulingSuggestions zone (jan15 8 0) nestedCommitments
              (mkOptions (Some (jan15 0 0)) None None None))
       = [jan15 10 45].
Proof.
  intros zone. split; [|split; [|split; [|split]]].
  - repeat constructor.
  - reflexivity.
  - vm_compute. reflexivity.
  - vm_compute. reflexivity.
  - vm_compute. reflexivity.
Qed.

(** C5, failing input.  A commitment that ends before 9:00 pulls the cursor
    back before the working window, and the trailing slot is emitted there;
    and a gap before a late commitment is filled without a look at the end of
    the window. *)
Theorem free_slot_outside_working_window :
  forall zone : Zone,
    sortByStart earlyCommitment = earlyCommitment
    /\ findFreeTimeSlots (jan15 0 0) earlyCommitment 60 = [mkSlot (jan15 6 45) (jan15 7 45)]
    /\ jan15 6 45 < workingStartOf (jan15 0 0)
    /\ map (fun s => (suggestedTime s, confidence s))
           (getSmartSchedulingSuggestions zone (jan15 8 0) earlyCommitment
              (mkOptions (Some (jan15 0 0)) None None None))
       = [(jan15 6 45, C_low)]
    /\ sortByStart lateCommitments = lateCommitments
    /\ findFreeTimeSlots (jan15 0 0) lateCommitments 60
       = [mkSlot (jan15 19 15) (jan15 20 15)]
    /\ workingEndOf (jan15 0 0) < jan15 20 15.
Proof.
  intros zone. repeat split; vm_compute; reflexivity.
Qed.

End SchedulingTheorems.

(** * Properties of the natural-language parser *)

Section ParserFacts.
Import DateFns NaturalLanguageParser.
Local Open Scope string_scope.
Local Open Scope Z_scope.


(** The date that the keyword "end of month" selects. *)
Lemma end_of_month_keyword_date (now : Date) (lowerInput : string) :
  includes lowerInput "today" = false ->
  includes lowerInput "tomorrow" = false ->
  includes lowerInput "yesterday" = false ->
  includes lowerInput "next week" = false ->
  includes lowerInput "next month" = false ->
  includes lowerInput "end of week" = false ->
  includes lowerInput "end of month" = true ->
  parsedDateOf now lowerInput = Some (endOfDay (addMonths now 1)).
Proof.
  intros H1 H2 H3 H4 H5 H6 H7.
  unfold parsedDateOf, firstKeyword, DATE_KEYWORDS. cbn [find fst].
  rewrite H1, H2, H3, H4, H5, H6, H7. reflexivity.
Qed.

(** The labels are the vocabulary words that occur as substrings of the
    lower-cased input, in vocabulary order. *)
Lemma labelsOf_substrings (lowerInput label : string) :
  In label (labelsOf lowerInput) <->
  In label LABEL_KEYWORDS /\ includes lowerInput label = true.
Proof. unfold labelsOf. apply filter_In. Qed.

Lemma code_range (c : ascii) : 0 <= code c < 256.
Proof. unfold code. pose proof (N_ascii_bounded c). lia. Qed.

Lemma code_charOf (n : Z) : 0 <= n < 256 -> code (charOf n) = n.
Proof.
  intros Hn. unfold code, charOf. rewrite N_ascii_embedding; lia.
Qed.

Lemma code_inj (a b : ascii) : code a = code b -> a = b.
Proof.
  unfold code. intros H.
  rewrite <- (ascii_N_embedding a), <- (ascii_N_embedding b).
  f_equal. lia.
Qed.

Ltac split_bounds :=
  repeat match goal with
         | H : context [?a <=? ?b] |- _ => destruct (Z.leb_spec a b)
         | H : context [?a =? ?b] |- _ => destruct (Z.eqb_spec a b)
         | |- context [?a <=? ?b] => destruct (Z.leb_spec a b)
         | |- context [?a =? ?b] => destruct (Z.eqb_spec a b)
         end.

(** Lower-casing never yields an upper-case ASCII letter. *)
Lemma toLowerChar_not_upper (c : ascii) :
  ~ (65 <= code (toLowerChar c) <= 90).
Proof.
  pose proof (code_range c) as Hc. unfold toLowerChar.
  destruct (((65 <=? code c) && (code c <=? 90))
            || ((192 <=? code c) && (code c <=? 222) && negb (code c =? 215))) eqn:E.
  - split_bounds; simpl in E; try discriminate; rewrite code_charOf; lia.
  - split_bounds; simpl in E; try discriminate; lia.
Qed.

(** In a lower-cased input, a lower-case pattern letter matches under the
    flag [i] only the same letter. *)
Lemma eqIgnoreCase_lower (p c : ascii) :
  isLowerLetter p = true ->
  eqIgnoreCase p (toLowerChar c) = true ->
  toLowerChar c = p.
Proof.
  intros Hp Heq. pose proof (toLowerChar_not_upper c) as Hup.
  pose proof (code_range (toLowerChar c)) as Hc.
  set (c' := toLowerChar c) in *.
  unfold eqIgnoreCase in Heq. apply Ascii.eqb_eq in Heq.
  apply (f_equal code) in Heq. unfold canonicalize, isLowerLetter in *.
  apply andb_true_iff in Hp. destruct Hp as [Hp1 Hp2].
  rewrite Hp1, Hp2 in Heq. simpl in Heq.
  apply Z.leb_le in Hp1, Hp2.
  rewrite code_charOf in Heq by lia.
  destruct ((97 <=? code c') && (code c' <=? 122)) eqn:E.
  - apply andb_true_iff in E. destruct E as [E1 E2]. apply Z.leb_le in E1, E2.
    rewrite code_charOf in Heq by lia. apply code_inj. lia.
  - lia.
Qed.

Lemma readIgnoreCase_prefix (keyword : string) :
  lowerWord keyword = true ->
  forall (before : option ascii) (input : string) r,
    readIgnoreCase keyword before (toLowerCase input) = Some r ->
    prefix keyword (toLowerCase input) = true.
Proof.
  induction keyword as [|p keyword IH]; intros Hlow before input r Hread.
  - destruct (toLowerCase input); reflexivity.
  - simpl in Hlow. apply andb_true_iff in Hlow. destruct Hlow as [Hp Hlow].
    destruct input as [|c input]; simpl in *; [discriminate|].
    destruct (eqIgnoreCase p (toLowerChar c)) eqn:Heq; [|discriminate].
    apply eqIgnoreCase_lower in Heq; [|assumption].
    destruct (ascii_dec p (toLowerChar c)) as [_ | Hne]; [|congruence].
    eapply IH; eassumption.
Qed.

Lemma occursAsWord_includes (keyword : string) :
  lowerWord keyword = true ->
  forall (input : string) (before : option ascii),
    occursAsWordFrom keyword before (toLowerCase input) = true ->
    includes (toLowerCase input) keyword = true.
Proof.
  intros Hlow. induction input as [|c input IH]; intros before Hocc.
  - simpl in *. rewrite orb_false_r in Hocc. unfold matchWordHere in Hocc.
    apply andb_true_iff in Hocc. destruct Hocc as [_ Hocc].
    destruct (readIgnoreCase keyword before EmptyString) as [r|] eqn:Hread; [|discriminate].
    pose proof (readIgnoreCase_prefix keyword Hlow before EmptyString r Hread) as Hp.
    simpl in Hp. rewrite Hp. reflexivity.
  - cbn [toLowerCase occursAsWordFrom includes] in *.
    apply orb_true_iff in Hocc. apply orb_true_iff. destruct Hocc as [Hhere | Hlater].
    + left. unfold matchWordHere in Hhere.
      apply andb_true_iff in Hhere. destruct Hhere as [_ Hhere].
      destruct (readIgnoreCase keyword before (String (toLowerChar c) (toLowerCase input)))
        as [r|] eqn:Hread; [|discriminate].
      apply (readIgnoreCase_prefix keyword Hlow before (String c input) r Hread).
    + right. eapply IH. eassumption.
Qed.

(** The direction of the label rule that does hold: a vocabulary word that
    occurs as a whole word in the lower-cased input is a label. *)
Lemma whole_word_labels_included (input label : string) :
  In label LABEL_KEYWORDS ->
  occursAsWord label (toLowerCase input) = true ->
  In label (labelsOf (toLowerCase input)).
Proof.
  intros Hin Hocc. apply labelsOf_substrings. split; [assumption|].
  apply (occursAsWord_includes label) with (before := None); [|exact Hocc].
  unfold LABEL_KEYWORDS in Hin. simpl in Hin.
  repeat (destruct Hin as [<- | Hin]; [reflexivity|]). contradiction.
Qed.

End ParserFacts.

Section ParserTheorems.
Import DateFns NaturalLanguageParser.
Local Open Scope string_scope.
Local Open Scope Z_scope.



(** C7, failing input.  The phrase "end of month" gives the end of the day
    that [addMonths] reaches one month after the clock reading.  On 15
    January 2024 that is the last millisecond of 15 February, while the month
    after the current one ends on 29 February. *)
Theorem end_of_month_is_not_a_month_end :
  (forall now : Date,
      dueDate (parseNaturalLanguage now "end of month") = Some (endOfDay (addMonths now 1)))
  /\ dueDate (parseNaturalLanguage (mkDate 2024 1 15 10 30 0 0) "end of month")
     = Some (mkDate 2024 2 15 23 59 59 999)
  /\ endOfMonth (addMonths (mkDate 2024 1 15 10 30 0 0) 1) = mkDate 2024 2 29 23 59 59 999
  /\ mkDate 2024 2 15 23 59 59 999 < mkDate 2024 2 29 23 59 59 999.
Proof.
  split; [intros now; reflexivity|].
  repeat split; vm_compute; reflexivity.
Qed.

(** C8, failing input.  "homework" contains "work" and "home" as substrings
    only, never between word boundaries, and both become labels. *)
Theorem substring_labels_homework :
  forall now : Date,
    labels (parseNaturalLanguage now "homework") = Some ["work"; "home"]%list
    /\ occursAsWord "work" (toLowerCase "homework") = false
    /\ occursAsWord "home" (toLowerCase "homework") = false
    /\ title (parseNaturalLanguage now "homework") = "homework".
Proof.
  intros now. repeat split; vm_compute; reflexivity.
Qed.

(** C9. The empty input gives the placeholder title "New Task", priority
    medium, no due date and no labels; and the title is never empty. *)
Theorem empty_input_and_title_nonempty :
  forall now : Date,
    parseNaturalLanguage now "" = mkParsed "New Task" None None None P_medium None
    /\ forall input : string, title (parseNaturalLanguage now input) <> "".
Proof.
  intros now. split; [reflexivity|].
  intros input. unfold parseNaturalLanguage. cbn [title].
  destruct (strippedTitle input); discriminate.
Qed.

End ParserTheorems.

(** * Further properties of the scheduling engine *)

Section SchedulingLoopFacts.
Import DateFns SmartScheduling.

(** What one turn of the loop does: the cursor moves behind the commitment,
    and at most one slot is pushed, at the old cursor, ending a break before
    the commitment. *)
Lemma gapStep_cases (d : Z) (c : Date) (slots : list Slot) (t : TaskTimeSlot) :
  fst (gapStep d (c, slots) t) = addMinutes (end_ t) BREAK_DURATION_MINUTES
  /\ (snd (gapStep d (c, slots) t) = slots
      \/ (snd (gapStep d (c, slots) t) = slots ++ [mkSlot c (addMinutes c d)]
          /\ addMinutes (addMinutes c d) BREAK_DURATION_MINUTES <= start t)).
Proof.
  unfold gapStep. cbn [fst snd]. split; [reflexivity|].
  destruct (c <? start t); [|now left].
  destruct (minutesAtLeast _ _) eqn:Hgap; [|now left].
  destruct (addMinutes c d <=? start t); [|now left].
  right. split; [reflexivity|].
  unfold minutesAtLeast in Hgap. apply Z.leb_le in Hgap.
  unfold addMinutes, BREAK_DURATION_MINUTES, MS_PER_MINUTE in *. lia.
Qed.

Lemma fold_gapStep_cons (d : Z) (t : TaskTimeSlot) (rest : list TaskTimeSlot)
    (c : Date) (slots : list Slot) :
  fold_left (gapStep d) (t :: rest) (c, slots)
  = fold_left (gapStep d) rest
      (fst (gapStep d (c, slots) t), snd (gapStep d (c, slots) t)).
Proof. reflexivity. Qed.

(** The result of [findFreeTimeSlots] is the list the loop leaves, with or
    without one trailing slot at the final cursor. *)
Lemma findFreeTimeSlots_cases (targetDate : Date) (tasks : list TaskTimeSlot) (d : Z) :
  let st := fold_left (gapStep d) tasks (workingStartOf targetDate, []) in
  findFreeTimeSlots targetDate tasks d = snd st
  \/ (findFreeTimeSlots targetDate tasks d
      = snd st ++ [mkSlot (fst st) (addMinutes (fst st) d)]
      /\ addMinutes (fst st) d <= workingEndOf targetDate).
Proof.
  cbv zeta. unfold findFreeTimeSlots.
  destruct (fold_left (gapStep d) tasks (workingStartOf targetDate, [])) as [c slots].
  cbn [fst snd].
  destruct (c <? workingEndOf targetDate); [|now left].
  destruct (minutesAtLeast _ _); [|now left].
  destruct (addMinutes c d <=? workingEndOf targetDate) eqn:Hfit; [|now left].
  right. split; [reflexivity | now apply Z.leb_le].
Qed.

Lemma gap_loop_count (d : Z) :
  forall (tasks : list TaskTimeSlot) (c : Date) (slots : list Slot),
    (List.length (snd (fold_left (gapStep d) tasks (c, slots)))
     <= List.length slots + List.length tasks)%nat
    /\ (Forall (fun s => slot_end s = addMinutes (slot_start s) d) slots ->
        Forall (fun s => slot_end s = addMinutes (slot_start s) d)
               (snd (fold_left (gapStep d) tasks (c, slots)))).
Proof.
  induction tasks as [|t rest IH]; intros c slots.
  - simpl. split; [lia | auto].
  - rewrite fold_gapStep_cons.
    destruct (gapStep_cases d c slots t) as [_ [Hsame | [Hpush _]]].
    + rewrite Hsame. destruct (IH (fst (gapStep d (c, slots) t)) slots) as [Hn Hd].
      split; [cbn [List.length]; lia | exact Hd].
    + rewrite Hpush.
      destruct (IH (fst (gapStep d (c, slots) t)) (slots ++ [mkSlot c (addMinutes c d)]))
        as [Hn Hd].
      split.
      * rewrite length_app in Hn. cbn [List.length] in *. lia.
      * intros Hall. apply Hd. apply Forall_app. split; [assumption|].
        constructor; [reflexivity | constructor].
Qed.

Lemma working_window_length (targetDate : Date) :
  workingEndOf targetDate - workingStartOf targetDate = WORKING_MINUTES * MS_PER_MINUTE.
Proof.
  unfold workingEndOf, workingStartOf, setHours, WORKING_MINUTES,
    DEFAULT_WORKING_HOURS_start, DEFAULT_WORKING_HOURS_end, MS_PER_HOUR, MS_PER_MINUTE.
  lia.
Qed.

(** [setHours(setMinutes(base, m), h)] with [m] a minute of the hour: the
    day of [base], at [h]:[m], with the seconds and milliseconds of [base]. *)
Lemma setHours_setMinutes (base h m : Z) :
  0 <= m < 60 ->
  setHours (setMinutes base m) h
  = startOfDay base + h * MS_PER_HOUR + m * MS_PER_MINUTE + base mod MS_PER_MINUTE.
Proof.
  intros Hm. unfold setHours, setMinutes, getHours, getMinutes, startOfDay,
    MS_PER_DAY, MS_PER_HOUR, MS_PER_MINUTE.
  pose proof (Z.div_mod base 86400000 ltac:(lia)) as Hday.
  pose proof (Z.mod_pos_bound base 86400000 ltac:(lia)) as Hdayb.
  set (r := base mod 86400000) in *.
  assert (Hh : base mod 3600000 = r mod 3600000).
  { unfold r. symmetry. apply Z.mod_mod_divide. exists 24. lia. }
  assert (Hs : base mod 60000 = r mod 60000).
  { unfold r. symmetry. apply Z.mod_mod_divide. exists 1440. lia. }
  rewrite Hh, Hs.
  pose proof (Z.div_mod r 3600000 ltac:(lia)) as Hr.
  pose proof (Z.mod_pos_bound r 3600000 ltac:(lia)) as Hrb.
  set (hh := r / 3600000) in *. set (rh := r mod 3600000) in *.
  assert (Hs2 : r mod 60000 = rh mod 60000).
  { unfold rh. symmetry. apply Z.mod_mod_divide. exists 60. lia. }
  rewrite Hs2.
  pose proof (Z.div_mod rh 60000 ltac:(lia)) as Hrh.
  pose proof (Z.mod_pos_bound rh 60000 ltac:(lia)) as Hrhb.
  set (mm := rh / 60000) in *. set (ss := rh mod 60000) in *.
  assert (Hmm : 0 <= mm < 60) by (unfold mm; split;
    [apply Z.div_pos; lia | apply Z.div_lt_upper_bound; lia]).
  assert (Hhh : 0 <= hh < 24) by (unfold hh; split;
    [apply Z.div_pos; lia | apply Z.div_lt_upper_bound; lia]).
  clearbody r hh rh mm ss.
  replace (base + (m - mm) * 60000) with (hh * 3600000 + m * 60000 + ss + (base / 86400000) * 86400000) by lia.
  rewrite Z_mod_plus_full.
  rewrite (Z.mod_small (hh * 3600000 + m * 60000 + ss) 86400000) by lia.
  replace ((hh * 3600000 + m * 60000 + ss) / 3600000) with hh.
  - lia.
  - apply (Z.div_unique_pos _ _ _ (m * 60000 + ss)); lia.
Qed.

Lemma chained_split (l1 : list TaskTimeSlot) (t : TaskTimeSlot) (l2 : list TaskTimeSlot) :
  chained (l1 ++ t :: l2) ->
  start t <= end_ t
  /\ (forall u, In u l1 -> end_ u <= start t)
  /\ (forall v, In v l2 -> end_ t <= start v).
Proof.
  induction l1 as [|a l1 IH]; simpl.
  - intros [Hle [Hafter _]]. repeat split; auto. intros u [].
  - intros [Hle [Hafter Hrest]]. destruct (IH Hrest) as [Ht [Hbefore Hlater]].
    repeat split; auto.
    intros u [<- | Hu]; [|now apply Hbefore].
    apply Hafter. apply in_or_app. right. now left.
Qed.

Lemma chained_tail (t : TaskTimeSlot) (rest : list TaskTimeSlot) :
  chained (t :: rest) ->
  start t <= end_ t /\ (forall v, In v rest -> end_ t <= start v) /\ chained rest.
Proof. simpl. tauto. Qed.

(** The loop over chained commitments: the cursor stays a break behind every
    commitment visited, and every slot pushed keeps the break from every
    commitment. *)
Lemma break_loop_invariant (d : Z) :
  forall (rest visited : list TaskTimeSlot) (c : Date) (slots : list Slot),
    chained (visited ++ rest) ->
    (forall u, In u visited -> addMinutes (end_ u) BREAK_DURATION_MINUTES <= c) ->
    (forall s u, In s slots -> In u (visited ++ rest) -> keepsBreak s u) ->
    (forall u, In u (visited ++ rest) ->
       addMinutes (end_ u) BREAK_DURATION_MINUTES
       <= fst (fold_left (gapStep d) rest (c, slots)))
    /\ (forall s u, In s (snd (fold_left (gapStep d) rest (c, slots))) ->
                    In u (visited ++ rest) -> keepsBreak s u).
Proof.
  induction rest as [|t rest IH]; intros visited c slots Hch Hvis Hslots.
  - cbn [fold_left fst snd]. rewrite app_nil_r in *. split; assumption.
  - rewrite fold_gapStep_cons.
    destruct (chained_split _ _ _ Hch) as [Hle [Hbefore Hlater]].
    assert (Happ : visited ++ t :: rest = (visited ++ [t]) ++ rest)
      by (rewrite <- app_assoc; reflexivity).
    destruct (gapStep_cases d c slots t) as [Hfst Hsnd].
    rewrite Hfst. rewrite Happ in *.
    assert (Hvis' : forall u, In u (visited ++ [t]) ->
              addMinutes (end_ u) BREAK_DURATION_MINUTES
              <= addMinutes (end_ t) BREAK_DURATION_MINUTES).
    { intros u Hu. apply in_app_or in Hu.
      unfold addMinutes, BREAK_DURATION_MINUTES, MS_PER_MINUTE.
      destruct Hu as [Hu | [<- | []]]; [specialize (Hbefore u Hu)|]; lia. }
    assert (Hslots' : forall s u, In s (snd (gapStep d (c, slots) t)) ->
              In u ((visited ++ [t]) ++ rest) -> keepsBreak s u).
    { intros s u Hs Hu.
      destruct Hsnd as [Hsame | [Hpush Hfit]].
      - rewrite Hsame in Hs. now apply Hslots.
      - rewrite Hpush in Hs. apply in_app_or in Hs.
        destruct Hs as [Hs | [<- | []]]; [now apply Hslots|].
        unfold keepsBreak. cbn [slot_start slot_end].
        rewrite <- Happ in Hu. apply in_app_or in Hu.
        destruct Hu as [Hu | [<- | Hu]].
        + left. now apply Hvis.
        + right. exact Hfit.
        + right. specialize (Hlater u Hu). lia. }
    exact (IH (visited ++ [t]) (addMinutes (end_ t) BREAK_DURATION_MINUTES)
              (snd (gapStep d (c, slots) t)) Hch Hvis' Hslots').
Qed.

Lemma StronglySorted_snoc {A : Type} (R : A -> A -> Prop) (l : list A) (a : A) :
  StronglySorted R l -> (forall x, In x l -> R x a) -> StronglySorted R (l ++ [a]).
Proof.
  induction l as [|b l IH]; intros Hs Hall; simpl.
  - constructor; constructor.
  - inversion Hs as [|? ? Hl Hb]; subst. constructor.
    + apply IH; [assumption | intros x Hx; apply Hall; now right].
    + apply Forall_app. split; [assumption|].
      constructor; [apply Hall; now left | constructor].
Qed.

(** The loop over chained commitments pushes its slots in chronological
    order: every slot ends at or before the cursor and before every
    commitment still to come. *)
Lemma ascending_loop_invariant (d : Z) :
  forall (rest : list TaskTimeSlot) (c : Date) (slots : list Slot),
    chained rest ->
    slotsAscending slots ->
    (forall s, In s slots -> slot_end s <= c) ->
    (forall s u, In s slots -> In u rest -> slot_end s <= start u) ->
    slotsAscending (snd (fold_left (gapStep d) rest (c, slots)))
    /\ (forall s, In s (snd (fold_left (gapStep d) rest (c, slots))) ->
          slot_end s <= fst (fold_left (gapStep d) rest (c, slots))).
Proof.
  induction rest as [|t rest IH]; intros c slots Hch Hasc Hcur Hnext.
  - cbn [fold_left fst snd]. split; assumption.
  - rewrite fold_gapStep_cons.
    destruct (chained_tail _ _ Hch) as [Hle [Hlater Hrest]].
    destruct (gapStep_cases d c slots t) as [Hfst Hsnd].
    assert (Hold : forall s, In s slots ->
              slot_end s <= addMinutes (end_ t) BREAK_DURATION_MINUTES).
    { intros s Hs. specialize (Hnext s t Hs (or_introl eq_refl)).
      unfold addMinutes, BREAK_DURATION_MINUTES, MS_PER_MINUTE. lia. }
    rewrite Hfst. destruct Hsnd as [Hsame | [Hpush Hfit]].
    + rewrite Hsame. apply IH; try assumption.
      intros s u Hs Hu. apply Hnext; [assumption | now right].
    + rewrite Hpush.
      assert (Hnew : addMinutes c d <= start t)
        by (unfold addMinutes, BREAK_DURATION_MINUTES, MS_PER_MINUTE in *; lia).
      apply IH; try assumption.
      * apply StronglySorted_snoc; [assumption|].
        intros x Hx. cbn [slot_start]. now apply Hcur.
      * intros s Hs. apply in_app_or in Hs.
        destruct Hs as [Hs | [<- | []]]; [now apply Hold|].
        cbn [slot_end]. unfold addMinutes, BREAK_DURATION_MINUTES, MS_PER_MINUTE in *. lia.
      * intros s u Hs Hu. apply in_app_or in Hs.
        destruct Hs as [Hs | [<- | []]].
        -- apply Hnext; [assumption | now right].
        -- cbn [slot_end]. specialize (Hlater u Hu). lia.
Qed.

Lemma insertByStart_perm (x : TaskTimeSlot) (l : list TaskTimeSlot) :
  Permutation (insertByStart x l) (x :: l).
Proof.
  induction l as [|y ys IH]; simpl; [reflexivity|].
  destruct (start x <=? start y); [reflexivity|].
  rewrite IH. apply perm_swap.
Qed.

Lemma sortByStart_perm (l : list TaskTimeSlot) : Permutation (sortByStart l) l.
Proof.
  induction l as [|x l IH]; simpl; [reflexivity|].
  rewrite insertByStart_perm. now constructor.
Qed.

Lemma insertByStart_sorted (x : TaskTimeSlot) (l : list TaskTimeSlot) :
  ascendingByStart l -> ascendingByStart (insertByStart x l).
Proof.
  unfold ascendingByStart. induction l as [|y ys IH]; intros Hs; simpl.
  - constructor; constructor.
  - inversion Hs as [|? ? Hys Hy]; subst.
    destruct (Z.leb_spec (start x) (start y)) as [Hle | Hgt].
    + constructor; [assumption|]. constructor; [assumption|].
      rewrite Forall_forall in *. intros z Hz. specialize (Hy z Hz). lia.
    + constructor; [now apply IH|].
      rewrite Forall_forall in *. intros z Hz.
      apply (Permutation_in _ (insertByStart_perm x ys)) in Hz.
      destruct Hz as [<- | Hz]; [lia | now apply Hy].
Qed.

Lemma sortByStart_sorted (l : list TaskTimeSlot) : ascendingByStart (sortByStart l).
Proof.
  induction l as [|x l IH]; simpl; [constructor | now apply insertByStart_sorted].
Qed.

(** Instants in ascending order are chained. *)
Lemma ascending_instants_chained (l : list TaskTimeSlot) :
  ascendingByStart l -> (forall u, In u l -> start u = end_ u) -> chained l.
Proof.
  unfold ascendingByStart. induction l as [|t rest IH]; intros Hs Hpt; simpl; [exact I|].
  inversion Hs as [|? ? Hrest Ht]; subst.
  split; [|split].
  - rewrite (Hpt t (or_introl eq_refl)). lia.
  - intros u Hu. rewrite Forall_forall in Ht. specialize (Ht u Hu).
    rewrite <- (Hpt t (or_introl eq_refl)). exact Ht.
  - apply IH; [assumption | intros u Hu; apply Hpt; now right].
Qed.

Lemma taskSlotsOf_In (existingTasks : list TaskForm.Task) (u : TaskTimeSlot) :
  In u (TaskForm.taskSlotsOf existingTasks) <->
  exists task due,
    In task existingTasks /\ TaskForm.task_dueDate task = Some due
    /\ u = mkTask due due (TaskForm.task_title task) (TaskForm.task_priority task).
Proof.
  unfold TaskForm.taskSlotsOf. rewrite in_flat_map. split.
  - intros [task [Hin Hu]]. destruct (TaskForm.task_dueDate task) as [due|] eqn:Hdue.
    + destruct Hu as [<- | []]. exists task, due. auto.
    + destruct Hu.
  - intros [task [due [Hin [Hdue ->]]]]. exists task. split; [assumption|].
    rewrite Hdue. now left.
Qed.

End SchedulingLoopFacts.

Section SchedulingLoopTheorems.
Import DateFns SmartScheduling.

(** X1. [findFreeTimeSlots] returns at most one slot per commitment plus one
    trailing slot, and every slot it returns has exactly the requested
    length. *)
Theorem free_slots_count_and_length :
  forall (targetDate : Date) (tasks : list TaskTimeSlot) (d : Z),
    (List.length (findFreeTimeSlots targetDate tasks d) <= List.length tasks + 1)%nat
    /\ Forall (fun s => slot_end s = addMinutes (slot_start s) d)
              (findFreeTimeSlots targetDate tasks d).
Proof.
  intros targetDate tasks d.
  destruct (gap_loop_count d tasks (workingStartOf targetDate) []) as [Hn Hd].
  specialize (Hd (Forall_nil _)).
  destruct (findFreeTimeSlots_cases targetDate tasks d) as [-> | [-> _]].
  - split; [simpl in Hn; lia | exact Hd].
  - split.
    + rewrite length_app. simpl in *. lia.
    + apply Forall_app. split; [exact Hd|]. constructor; [reflexivity | constructor].
Qed.

(** X2. With no commitment, [findFreeTimeSlots] returns one slot when the
    requested duration is at most the 540 minutes of the working window and
    none when it is longer; the slot starts at 9:00 of the target day plus
    the seconds and milliseconds of the target date. *)
Theorem free_slots_of_empty_day :
  forall (targetDate : Date) (d : Z),
    findFreeTimeSlots targetDate [] d
    = (if d <=? WORKING_MINUTES
       then [mkSlot (workingStartOf targetDate) (addMinutes (workingStartOf targetDate) d)]
       else [])
    /\ workingStartOf targetDate
       = startOfDay targetDate + 9 * MS_PER_HOUR + targetDate mod MS_PER_MINUTE.
Proof.
  intros targetDate d. split.
  - unfold findFreeTimeSlots. cbn [fold_left].
    pose proof (working_window_length targetDate) as Hlen.
    unfold minutesAtLeast, addMinutes, WORKING_MINUTES, MS_PER_MINUTE in *.
    assert (Hlt : (workingStartOf targetDate <? workingEndOf targetDate) = true)
      by (apply Z.ltb_lt; lia).
    rewrite Hlt.
    destruct (Z.leb_spec d 540) as [Hd | Hd].
    + replace (d * 60000 <=? workingEndOf targetDate - workingStartOf targetDate)
        with true by (symmetry; apply Z.leb_le; lia).
      replace (workingStartOf targetDate + d * 60000 <=? workingEndOf targetDate)
        with true by (symmetry; apply Z.leb_le; lia).
      reflexivity.
    + replace (d * 60000 <=? workingEndOf targetDate - workingStartOf targetDate)
        with false by (symmetry; apply Z.leb_gt; lia).
      reflexivity.
  - unfold workingStartOf, DEFAULT_WORKING_HOURS_start.
    rewrite setHours_setMinutes by lia. lia.
Qed.

(** X3. On commitments that are chained (ascending, each ending at or before
    the start of the next, instants allowed), every slot of
    [findFreeTimeSlots] keeps the 15-minute break from every commitment: the
    commitment ends at least 15 minutes before the slot or starts at least 15
    minutes after it. *)
Theorem free_slots_keep_the_break :
  forall (targetDate : Date) (tasks : list TaskTimeSlot) (d : Z),
    chained tasks ->
    forall s u, In s (findFreeTimeSlots targetDate tasks d) -> In u tasks -> keepsBreak s u.
Proof.
  intros targetDate tasks d Hch s u Hs Hu.
  destruct (break_loop_invariant d tasks [] (workingStartOf targetDate) [] Hch)
    as [Hcur Hall]; [intros x [] | intros x y [] |].
  cbn [app] in *.
  destruct (findFreeTimeSlots_cases targetDate tasks d) as [Heq | [Heq _]];
    rewrite Heq in Hs.
  - now apply Hall.
  - apply in_app_or in Hs. destruct Hs as [Hs | [<- | []]]; [now apply Hall|].
    left. cbn [slot_start]. now apply Hcur.
Qed.

(** The witness of X3: a meeting from 10:00 to 11:00 and a task due at the
    instant 14:00. *)
Lemma free_slots_keep_the_break_witness :
  Forall (fun s => Forall (keepsBreak s) mixedCommitments)
         (findFreeTimeSlots (jan15 0 0) mixedCommitments 30).
Proof.
  apply Forall_forall. intros s Hs. apply Forall_forall. intros u Hu.
  revert s u Hs Hu. apply free_slots_keep_the_break.
  simpl. repeat split; try (vm_compute; discriminate);
    intros u Hu; repeat (destruct Hu as [<- | Hu]; [vm_compute; discriminate|]);
    destruct Hu.
Defined.

(** X4. On chained commitments the slots of [findFreeTimeSlots] come in
    chronological order and do not overlap each other. *)
Theorem free_slots_ascending :
  forall (targetDate : Date) (tasks : list TaskTimeSlot) (d : Z),
    chained tasks ->
    slotsAscending (findFreeTimeSlots targetDate tasks d).
Proof.
  intros targetDate tasks d Hch.
  destruct (ascending_loop_invariant d tasks (workingStartOf targetDate) [] Hch)
    as [Hasc Hcur]; [constructor | intros s [] | intros s u [] |].
  destruct (findFreeTimeSlots_cases targetDate tasks d) as [-> | [-> _]].
  - exact Hasc.
  - apply StronglySorted_snoc; [exact Hasc|].
    intros x Hx. cbn [slot_start]. now apply Hcur.
Qed.

(** The witness of X4, on the same two commitments. *)
Lemma free_slots_ascending_witness :
  slotsAscending (findFreeTimeSlots (jan15 0 0) mixedCommitments 30).
Proof.
  apply free_slots_ascending.
  simpl. repeat split; try (vm_compute; discriminate);
    intros u Hu; repeat (destruct Hu as [<- | Hu]; [vm_compute; discriminate|]);
    destruct Hu.
Defined.

(** X5. The commitments that [getSmartSchedulingSuggestions] hands to
    [findFreeTimeSlots] are exactly the commitments that start on the
    calendar day of the target date, each as often as given, in ascending
    order of start. *)
Theorem tasksOnDate_sorted_same_day :
  forall (targetDate : Date) (existingTasks : list TaskTimeSlot),
    ascendingByStart (tasksOnDateOf targetDate existingTasks)
    /\ Permutation (tasksOnDateOf targetDate existingTasks)
                   (filter (fun task => sameDateString (start task) targetDate) existingTasks)
    /\ (forall u, In u (tasksOnDateOf targetDate existingTasks) <->
                  In u existingTasks /\ start u / MS_PER_DAY = targetDate / MS_PER_DAY).
Proof.
  intros targetDate existingTasks. unfold tasksOnDateOf.
  split; [apply sortByStart_sorted|]. split; [apply sortByStart_perm|].
  intros u. split.
  - intros Hu. apply (Permutation_in _ (sortByStart_perm _)) in Hu.
    apply filter_In in Hu. destruct Hu as [Hin Hday].
    split; [assumption | now apply Z.eqb_eq].
  - intros [Hin Hday].
    apply (Permutation_in _ (Permutation_sym (sortByStart_perm _))).
    apply filter_In. split; [assumption | now apply Z.eqb_eq].
Qed.

(** X6. The suggestions that the task form computes for a picked date are
    either the single fallback, or each of them leaves a 60-minute slot with
    the 15-minute break around every existing task due on the picked day: the
    task is due at least 15 minutes before the suggested time or at least 75
    minutes after it. *)
Theorem form_suggestions_clear_of_due_tasks :
  forall (zone : Zone) (now : Date) (formPriority : Priority)
         (existingTasks : list TaskForm.Task) (date : Date),
    let result :=
      TaskForm.generateSchedulingSuggestions zone now formPriority existingTasks
        (Some date) in
    result = [fallbackSuggestion zone date]
    \/ (forall s task due,
          In s result -> In task existingTasks ->
          TaskForm.task_dueDate task = Some due ->
          due / MS_PER_DAY = date / MS_PER_DAY ->
          addMinutes due 15 <= suggestedTime s \/ addMinutes (suggestedTime s) 75 <= due).
Proof.
  intros zone now formPriority existingTasks date result. subst result.
  unfold TaskForm.generateSchedulingSuggestions.
  destruct existingTasks as [|task0 others]; [right; intros s task due []|].
  set (existingTasks := task0 :: others).
  unfold getSmartSchedulingSuggestions, targetDateOf. cbn [preferredDate duration opt_priority].
  set (tasksOnDate := tasksOnDateOf date (TaskForm.taskSlotsOf existingTasks)).
  set (freeSlots := findFreeTimeSlots date tasksOnDate 60).
  destruct (firstn 5 freeSlots) as [|slot0 slots] eqn:Hfirst; [now left|].
  right. cbn [map]. intros s task due Hs Htask Hdue Hday.
  change (In s (map (fun slot => mkSuggestion (slot_start slot)
                       (generateSuggestionReason slot tasksOnDate formPriority)
                       (calculateConfidence slot tasksOnDate formPriority))
                    (slot0 :: slots))) in Hs.
  apply in_map_iff in Hs. destruct Hs as [slot [<- Hslot]]. cbn [suggestedTime].
  assert (Hfree : In slot freeSlots).
  { rewrite <- (firstn_skipn 5 freeSlots). apply in_or_app. left. now rewrite Hfirst. }
  destruct (tasksOnDate_sorted_same_day date (TaskForm.taskSlotsOf existingTasks))
    as [Hsorted [_ Hmem]].
  fold tasksOnDate in Hsorted, Hmem.
  assert (Hpoints : forall u, In u tasksOnDate -> start u = end_ u).
  { intros u Hu. apply Hmem in Hu. destruct Hu as [Hu _].
    apply taskSlotsOf_In in Hu. destruct Hu as [t [d [_ [_ ->]]]]. reflexivity. }
  pose proof (ascending_instants_chained tasksOnDate Hsorted Hpoints) as Hch.
  set (u := mkTask due due (TaskForm.task_title task) (TaskForm.task_priority task)).
  assert (Hu : In u tasksOnDate).
  { apply Hmem. split; [|exact Hday].
    apply taskSlotsOf_In. exists task, due. auto. }
  destruct (free_slots_count_and_length date tasksOnDate 60) as [_ Hlen].
  rewrite Forall_forall in Hlen. specialize (Hlen slot Hfree).
  destruct (free_slots_keep_the_break date tasksOnDate 60 Hch slot u Hfree Hu) as [H | H].
  - left. exact H.
  - right. rewrite Hlen in H. cbn [start u] in H.
    unfold addMinutes, BREAK_DURATION_MINUTES, MS_PER_MINUTE in *. lia.
Qed.

(** The witness of X6: a task due at 10:00 on the picked day; the first
    suggestion is 9:00, more than 15 minutes before. *)
Lemma form_suggestions_clear_of_due_tasks_witness :
  Forall (fun s => addMinutes (jan15 10 0) 15 <= suggestedTime s
                   \/ addMinutes (suggestedTime s) 75 <= jan15 10 0)
         (TaskForm.generateSchedulingSuggestions utcZone (jan15 8 0) P_high
            [TaskForm.mkFormTask "Report" (Some (jan15 10 0)) P_medium]
            (Some (jan15 0 0))).
Proof.
  apply Forall_forall. intros s Hs.
  destruct (form_suggestions_clear_of_due_tasks utcZone (jan15 8 0) P_high
              [TaskForm.mkFormTask "Report" (Some (jan15 10 0)) P_medium] (jan15 0 0))
    as [Hfallback | Hclear].
  - vm_compute in Hfallback. discriminate Hfallback.
  - apply (Hclear s (TaskForm.mkFormTask "Report" (Some (jan15 10 0)) P_medium));
      [exact Hs | now left | reflexivity | reflexivity].
Defined.

(** X7. The options [priority] and [avoidConflicts] never change the
    suggestions: two option values with the same preferred date and the same
    duration give the same result. *)
Theorem suggestions_ignore_priority_and_avoidConflicts :
  forall (zone : Zone) (now : Date) (tasks : list TaskTimeSlot)
         (o1 o2 : SchedulingOptions),
    preferredDate o1 = preferredDate o2 ->
    duration o1 = duration o2 ->
    getSmartSchedulingSuggestions zone now tasks o1
    = getSmartSchedulingSuggestions zone now tasks o2.
Proof.
  intros zone now tasks [p1 d1 q1 a1] [p2 d2 q2 a2]. cbn [preferredDate duration].
  intros -> ->. reflexivity.
Qed.

(** The witness of X7: urgent without conflict avoidance against the
    defaults. *)
Lemma suggestions_ignore_priority_and_avoidConflicts_witness :
  getSmartSchedulingSuggestions utcZone (jan15 8 0) nestedCommitments
    (mkOptions None None (Some P_urgent) (Some false))
  = getSmartSchedulingSuggestions utcZone (jan15 8 0) nestedCommitments noOptions.
Proof.
  apply suggestions_ignore_priority_and_avoidConflicts; reflexivity.
Defined.

(** X8. For a duration that is not negative: when every commitment is over
    by the last probe time (23 hours 45 minutes after the start time),
    [getNextAvailableSlot] finds a time, and any time it returns lies between
    the start time and the last probe. *)
Theorem next_slot_found_when_commitments_end :
  forall (startTime : Date) (d : Z) (tasks : list TaskTimeSlot),
    0 <= d ->
    (forall t, getNextAvailableSlot startTime d tasks = Some t ->
               startTime <= t <= probeTime startTime 95)
    /\ ((forall u, In u tasks -> Z.max (start u) (end_ u) <= probeTime startTime 95) ->
        exists t, getNextAvailableSlot startTime d tasks = Some t).
Proof.
  intros startTime d tasks Hd. unfold getNextAvailableSlot.
  change (24 * 4)%nat with 96%nat. split.
  - intros t Ht. apply probeFrom_Some in Ht.
    destruct Ht as [k [Hk [-> _]]].
    unfold probeTime, addMinutes, MS_PER_MINUTE. lia.
  - intros Hend.
    destruct (probeFrom 96 startTime d tasks) as [t|] eqn:Hres; [now exists t|].
    exfalso. pose proof (proj1 (probeFrom_None d tasks 96 startTime) Hres 95%nat ltac:(lia))
      as Hbusy.
    unfold checkForConflicts in Hbusy. apply existsb_exists in Hbusy.
    destruct Hbusy as [u [Hu Hov]]. specialize (Hend u Hu).
    unfold areIntervalsOverlapping in Hov. cbv zeta in Hov.
    apply andb_true_iff in Hov. destruct Hov as [Hov _].
    apply Z.ltb_lt in Hov. unfold addMinutes, MS_PER_MINUTE in Hov. lia.
Qed.

(** The witness of X8: a meeting that ends two hours after the start time. *)
Lemma next_slot_found_when_commitments_end_witness :
  exists t,
    getNextAvailableSlot (jan15 9 0) 60 [commitment 9 0 11 0 "Meeting"] = Some t.
Proof.
  apply (next_slot_found_when_commitments_end (jan15 9 0) 60 [commitment 9 0 11 0 "Meeting"]).
  - lia.
  - intros u [<- | []]. vm_compute. discriminate.
Defined.

(** X18. Reason and confidence by the start hour of the slot: 9 to 11 is
    the morning text with confidence high (the lunch test never applies at
    11); 14 to 16 is the afternoon text with high; 12 and 13 are the lunch
    text with medium; 17 and 18 are medium and every other hour is low, both
    with the text on nearby tasks, which says "no nearby tasks" exactly when
    no commitment starts less than two hours from the slot. *)
Theorem reason_and_confidence_by_hour :
  forall (slot : Slot) (tasks : list TaskTimeSlot) (p : Priority),
    let h := getHours (slot_start slot) in
    let time := format_h_mm_a (slot_start slot) in
    let r := generateSuggestionReason slot tasks p in
    let c := calculateConfidence slot tasks p in
    let far := forall u, In u tasks -> 2 * MS_PER_HOUR <= Z.abs (start u - slot_start slot) in
    let nearbyText :=
      (far /\ r = ("Free slot at " ++ time ++ " - no nearby tasks")%string)
      \/ (~ far /\ r = ("Available slot at " ++ time
                         ++ " - fits well with your schedule")%string) in
    (9 <= h <= 11 ->
       r = ("Great morning slot at " ++ time ++ " - high productivity time")%string
       /\ c = C_high)
    /\ (14 <= h <= 16 ->
          r = ("Good afternoon slot at " ++ time ++ " - focused work time")%string
          /\ c = C_high)
    /\ (12 <= h <= 13 ->
          r = ("Lunch hour slot at " ++ time ++ " - good for meetings")%string
          /\ c = C_medium)
    /\ (17 <= h <= 18 -> nearbyText /\ c = C_medium)
    /\ (h < 9 \/ 18 < h -> nearbyText /\ c = C_low).
Proof.
  intros slot tasks p. cbv zeta.
  unfold generateSuggestionReason, calculateConfidence,
    DEFAULT_WORKING_HOURS_start, DEFAULT_WORKING_HOURS_end.
  generalize (format_h_mm_a (slot_start slot)) as time.
  generalize (getHours (slot_start slot)) as h. intros h time.
  set (near := fun task : TaskTimeSlot =>
                 Z.abs (start task - slot_start slot) <? 2 * 60 * 60 * 1000).
  set (far := forall u, In u tasks -> 2 * MS_PER_HOUR <= Z.abs (start u - slot_start slot)).
  assert (Hfar : far <-> filter near tasks = []).
  { unfold far. split.
    - intros H. destruct (filter near tasks) as [|x rest] eqn:Hf; [reflexivity|].
      assert (Hin : In x (filter near tasks)) by (rewrite Hf; now left).
      apply filter_In in Hin. destruct Hin as [Hin Hn].
      unfold near in Hn. apply Z.ltb_lt in Hn. specialize (H x Hin).
      unfold MS_PER_HOUR in H. lia.
    - intros Hf u Hu. destruct (near u) eqn:Hn.
      + assert (Hin : In u (filter near tasks)) by (apply filter_In; auto).
        rewrite Hf in Hin. destruct Hin.
      + unfold near in Hn. apply Z.ltb_ge in Hn. unfold MS_PER_HOUR. lia. }
  assert (Hnear :
    (far /\ match filter near tasks with
            | [] => ("Free slot at " ++ time ++ " - no nearby tasks")%string
            | _ :: _ => ("Available slot at " ++ time
                         ++ " - fits well with your schedule")%string
            end = ("Free slot at " ++ time ++ " - no nearby tasks")%string)
    \/ (~ far /\ match filter near tasks with
                 | [] => ("Free slot at " ++ time ++ " - no nearby tasks")%string
                 | _ :: _ => ("Available slot at " ++ time
                              ++ " - fits well with your schedule")%string
                 end = ("Available slot at " ++ time
                        ++ " - fits well with your schedule")%string)).
  { destruct (filter near tasks) as [|x rest] eqn:Hf.
    - left. split; [now apply Hfar | reflexivity].
    - right. split; [|reflexivity]. intros H. apply Hfar in H. discriminate H. }
  split; [|split; [|split; [|split]]]; intros H; try (destruct H as [H | H]);
    repeat match goal with
           | |- context [(?a <=? ?b)] =>
               first [ replace (a <=? b) with true by (symmetry; apply Z.leb_le; lia)
                     | replace (a <=? b) with false by (symmetry; apply Z.leb_gt; lia) ]
           end;
    cbn [andb orb]; split; try reflexivity; exact Hnear.
Qed.

(** The witness of X18: the slot 11:15 to 11:45 is a morning slot. *)
Lemma reason_and_confidence_by_hour_witness :
  generateSuggestionReason (mkSlot (jan15 11 15) (jan15 11 45)) mixedCommitments P_low
  = "Great morning slot at 11:15 AM - high productivity time"%string
  /\ calculateConfidence (mkSlot (jan15 11 15) (jan15 11 45)) mixedCommitments P_low = C_high.
Proof.
  apply (reason_and_confidence_by_hour (mkSlot (jan15 11 15) (jan15 11 45))
           mixedCommitments P_low).
  vm_compute. split; discriminate.
Defined.

End SchedulingLoopTheorems.

(** * Further properties of the natural-language parser *)

Section ParserStringFacts.
Import DateFns NaturalLanguageParser.
Local Open Scope string_scope.
Local Open Scope Z_scope.

Lemma append_assoc (a b c : string) : (a ++ b) ++ c = a ++ (b ++ c).
Proof. induction a as [|x a IH]; simpl; [reflexivity | now rewrite IH]. Qed.

Lemma toLowerCase_app (a b : string) :
  toLowerCase (a ++ b) = toLowerCase a ++ toLowerCase b.
Proof. induction a as [|x a IH]; simpl; [reflexivity | now rewrite IH]. Qed.

Lemma prefix_iff (a s : string) :
  prefix a s = true <-> exists post, s = a ++ post.
Proof.
  revert s. induction a as [|x a IH]; intros s.
  - split; [intros _; exists s; reflexivity | intros _; destruct s; reflexivity].
  - destruct s as [|y s]; simpl.
    + split; [discriminate | intros [post H]; discriminate H].
    + destruct (ascii_dec x y) as [-> | Hne].
      * rewrite IH. split; intros [post H]; exists post; [now rewrite H | now injection H].
      * split; [discriminate | intros [post H]; injection H; intros; congruence].
Qed.

(** [includes] is the substring test. *)
Lemma includes_iff (s keyword : string) :
  includes s keyword = true <-> exists pre post, s = pre ++ keyword ++ post.
Proof.
  induction s as [|c s IH].
  - cbn [includes]. rewrite orb_false_r, prefix_iff. split.
    + intros [post H]. exists "", post. exact H.
    + intros [pre [post H]]. destruct pre; [now exists post | discriminate H].
  - cbn [includes]. rewrite orb_true_iff, prefix_iff, IH. split.
    + intros [[post H] | [pre [post H]]].
      * exists "", post. exact H.
      * exists (String c pre), post. simpl. now rewrite H.
    + intros [[|x pre] [post H]].
      * left. now exists post.
      * right. exists pre, post. simpl in H. now injection H.
Qed.

(** A string that includes a keyword includes every tail of the keyword. *)
Lemma includes_keyword_tail (s a b : string) :
  includes s (a ++ b) = true -> includes s b = true.
Proof.
  rewrite !includes_iff. intros [pre [post H]].
  exists (pre ++ a), post. now rewrite H, !append_assoc.
Qed.

Lemma firstKeyword_None {A : Type} (table : list (string * A)) (lowerInput : string) :
  firstKeyword table lowerInput = None <->
  forall entry, In entry table -> includes lowerInput (fst entry) = false.
Proof.
  unfold firstKeyword. split.
  - intros H entry Hin.
    destruct (find _ table) as [e|] eqn:Hfind; [discriminate H|].
    exact (find_none _ _ Hfind entry Hin).
  - intros H. destruct (find _ table) as [e|] eqn:Hfind; [|reflexivity].
    apply find_some in Hfind. destruct Hfind as [Hin Hinc].
    rewrite (H e Hin) in Hinc. discriminate Hinc.
Qed.

Lemma hasDigit_head (s : string) : startsWithDigit s = true -> noDigit s = false.
Proof.
  destruct s as [|c s]; unfold startsWithDigit, noDigit; [discriminate|].
  intros Hd. cbn [allChars]. rewrite Hd. reflexivity.
Qed.

Lemma noDigit_skipSpaces (s : string) : noDigit s = true -> noDigit (skipSpaces s) = true.
Proof.
  unfold noDigit. induction s as [|c s IH]; cbn [allChars skipSpaces]; [reflexivity|].
  intros H. apply andb_true_iff in H. destruct H as [Hc Hs].
  destruct (isSpace c); [now apply IH | cbn [allChars]; now rewrite Hc, Hs].
Qed.

(** The pattern needs a digit: it matches at a position that holds a digit,
    and nowhere in an input without digits. *)
Lemma matchTimeHere_digit (s : string) :
  startsWithDigit s = true -> matchTimeHere s <> None.
Proof.
  destruct s as [|d s]; unfold startsWithDigit; [discriminate|]. intros Hd.
  unfold matchTimeHere.
  assert (Hskip : skipAtPrefix (String d s) = String d s).
  { unfold skipAtPrefix. destruct s as [|t [|c r]]; try reflexivity.
    destruct (Ascii.eqb_spec d "a") as [-> | _]; [discriminate Hd | reflexivity]. }
  rewrite Hskip, Hd.
  destruct (takeHour d s) as [g1 r2]. destruct (takeMinute r2) as [g2 r3].
  destruct (takeMeridiem (skipSpaces r3)) as [g3 r4]. discriminate.
Qed.

Lemma matchTimeHere_noDigit (s : string) : noDigit s = true -> matchTimeHere s = None.
Proof.
  intros Hno. unfold matchTimeHere.
  assert (Hskip : skipAtPrefix s = s).
  { unfold skipAtPrefix. destruct s as [|a [|t [|c r]]]; try reflexivity.
    destruct (Ascii.eqb a "a" && Ascii.eqb t "t" && isSpace c); [|reflexivity].
    destruct (startsWithDigit (skipSpaces r)) eqn:Hd; [|reflexivity].
    apply hasDigit_head in Hd. rewrite noDigit_skipSpaces in Hd; [discriminate Hd|].
    unfold noDigit in *. cbn [allChars] in Hno.
    apply andb_true_iff in Hno. destruct Hno as [_ Hno].
    apply andb_true_iff in Hno. destruct Hno as [_ Hno].
    apply andb_true_iff in Hno. now destruct Hno as [_ Hno]. }
  rewrite Hskip. destruct s as [|d s]; [reflexivity|].
  unfold noDigit in Hno. cbn [allChars] in Hno. apply andb_true_iff in Hno.
  destruct Hno as [Hd _]. apply negb_true_iff in Hd. now rewrite Hd.
Qed.

Lemma firstTimeMatch_None (s : string) :
  firstTimeMatch s = None <-> noDigit s = true.
Proof.
  induction s as [|c s IH].
  - split; reflexivity.
  - cbn [firstTimeMatch]. split.
    + intros H. destruct (matchTimeHere (String c s)) eqn:Hhere; [discriminate H|].
      unfold noDigit. cbn [allChars]. apply andb_true_iff. split; [|now apply IH].
      destruct (isDigit c) eqn:Hd; [|reflexivity].
      exfalso. apply (matchTimeHere_digit (String c s)); assumption.
    + intros Hno. rewrite (matchTimeHere_noDigit _ Hno).
      apply IH. unfold noDigit in *. cbn [allChars] in Hno.
      apply andb_true_iff in Hno. now destruct Hno.
Qed.

(** The editing steps of the title only delete characters, or put a blank
    in the place of white space: a test that the blank passes and that every
    character of the input passes is passed by every character of the
    output. *)
Lemma allChars_skipSpaces (p : ascii -> bool) (s : string) :
  allChars p s = true -> allChars p (skipSpaces s) = true.
Proof.
  induction s as [|c s IH]; cbn [allChars skipSpaces]; [reflexivity|].
  intros H. destruct (isSpace c); [|exact H].
  apply andb_true_iff in H. now apply IH.
Qed.

Lemma allChars_trimEnd (p : ascii -> bool) (s : string) :
  allChars p s = true -> allChars p (trimEnd s) = true.
Proof.
  induction s as [|c s IH]; cbn [allChars trimEnd]; [reflexivity|].
  intros H. apply andb_true_iff in H. destruct H as [Hc Hs]. specialize (IH Hs).
  destruct (trimEnd s) as [|x r].
  - destruct (isSpace c); cbn [allChars]; [reflexivity | now rewrite Hc].
  - cbn [allChars] in *. now rewrite Hc, IH.
Qed.

Lemma allChars_trim (p : ascii -> bool) (s : string) :
  allChars p s = true -> allChars p (trim s) = true.
Proof. intros H. unfold trim. now apply allChars_trimEnd, allChars_skipSpaces. Qed.

Lemma allChars_removeWordsFrom (p : ascii -> bool) (keywords : list string) (s : string) :
  forall (before : option ascii) (skip : nat),
    allChars p s = true -> allChars p (removeWordsFrom keywords before skip s) = true.
Proof.
  induction s as [|c s IH]; intros before skip H; cbn [removeWordsFrom allChars];
    [reflexivity|].
  cbn [allChars] in H. apply andb_true_iff in H. destruct H as [Hc Hs].
  destruct skip as [|k]; [|now apply IH].
  destruct (matchAnyWordHere keywords before (String c s)); [now apply IH|].
  cbn [allChars]. rewrite Hc. now apply IH.
Qed.

Lemma allChars_stripKeywords (p : ascii -> bool) (keywords : list string) :
  forall s, allChars p s = true -> allChars p (stripKeywords keywords s) = true.
Proof.
  unfold stripKeywords. induction keywords as [|k keywords IH]; intros s H; cbn [fold_left].
  - exact H.
  - apply IH. apply allChars_trim. unfold removeWord, removeWords.
    now apply allChars_removeWordsFrom.
Qed.

Lemma allChars_collapseFrom (p : ascii -> bool) (s : string) :
  p " "%char = true ->
  forall inRun, allChars p s = true -> allChars p (collapseFrom inRun s) = true.
Proof.
  intros Hblank. induction s as [|c s IH]; intros inRun H; cbn [collapseFrom allChars];
    [reflexivity|].
  cbn [allChars] in H. apply andb_true_iff in H. destruct H as [Hc Hs].
  destruct (isSpace c).
  - destruct inRun; [now apply IH|]. cbn [allChars]. rewrite Hblank. now apply IH.
  - cbn [allChars]. rewrite Hc. now apply IH.
Qed.

(** Removing the clock-time matches removes every digit. *)
Lemma removeTimes_noDigit (s : string) :
  forall skip, noDigit (removeTimes skip s) = true.
Proof.
  unfold noDigit. induction s as [|c s IH]; intros skip; cbn [removeTimes allChars];
    [reflexivity|].
  destruct skip as [|k]; [|apply IH].
  destruct (matchTimeHere (String c s)) as [m|] eqn:Hhere; [apply IH|].
  cbn [allChars]. rewrite IH, andb_true_r.
  destruct (isDigit c) eqn:Hd; [|reflexivity].
  exfalso. apply (matchTimeHere_digit (String c s)); assumption.
Qed.

(** After [replace(/\s+/g, ' ')] white space comes as single blanks. *)
Lemma spacedFrom_collapseFrom (s : string) :
  forall inRun, spacedFrom inRun (collapseFrom inRun s) = true.
Proof.
  induction s as [|c s IH]; intros inRun; cbn [collapseFrom spacedFrom]; [reflexivity|].
  destruct (isSpace c) eqn:Hc.
  - destruct inRun; [apply IH|].
    cbn [spacedFrom]. change (isSpace " ") with true. cbn. apply IH.
  - cbn [spacedFrom]. rewrite Hc. apply IH.
Qed.

Lemma spacedFrom_skipSpaces (s : string) :
  forall b, spacedFrom b s = true -> spacedFrom true (skipSpaces s) = true.
Proof.
  induction s as [|c s IH]; intros b H; cbn [skipSpaces spacedFrom] in *; [reflexivity|].
  destruct (isSpace c) eqn:Hc.
  - apply andb_true_iff in H. destruct H as [_ H]. now apply (IH true).
  - cbn [spacedFrom]. now rewrite Hc.
Qed.

Lemma singleSpacedFrom_trimEnd (s : string) :
  forall b, spacedFrom b s = true ->
            trimEnd s = EmptyString \/ singleSpacedFrom b (trimEnd s) = true.
Proof.
  induction s as [|c s IH]; intros b H; cbn [trimEnd]; [now left|].
  cbn [spacedFrom] in H.
  destruct (isSpace c) eqn:Hc.
  - apply andb_true_iff in H. destruct H as [Hhead Hrest].
    destruct (IH true Hrest) as [Hnil | Hok].
    + rewrite Hnil. now left.
    + destruct (trimEnd s) as [|x r] eqn:Hr; [now left|].
      right. cbn [singleSpacedFrom]. rewrite Hc, Hhead. exact Hok.
  - destruct (IH false H) as [Hnil | Hok].
    + rewrite Hnil. right. cbn [singleSpacedFrom]. now rewrite Hc.
    + destruct (trimEnd s) as [|x r] eqn:Hr.
      * right. cbn [singleSpacedFrom]. now rewrite Hc.
      * right. cbn [singleSpacedFrom]. rewrite Hc. exact Hok.
Qed.

End ParserStringFacts.

Section ParserKeywordTheorems.
Import DateFns NaturalLanguageParser.
Local Open Scope string_scope.
Local Open Scope Z_scope.

(** X9. The due date is absent exactly when the input holds no digit and its
    lower-cased form includes no date keyword and no time-of-day keyword; in
    particular every input that holds a digit gets a due date. *)
Theorem dueDate_absent_iff :
  forall (now : Date) (input : string),
    dueDate (parseNaturalLanguage now input) = None <->
    noDigit input = true
    /\ (forall entry, In entry DATE_KEYWORDS ->
                      includes (toLowerCase input) (fst entry) = false)
    /\ (forall entry, In entry TIME_KEYWORDS ->
                      includes (toLowerCase input) (fst entry) = false).
Proof.
  intros now input. unfold parseNaturalLanguage. cbn [dueDate].
  rewrite <- firstTimeMatch_None, <- !firstKeyword_None.
  unfold finalDateOf, parsedDateOf, parsedTimeOf.
  destruct (firstKeyword DATE_KEYWORDS (toLowerCase input)) as [f|];
    destruct (firstTimeMatch input) as [m|];
    destruct (firstKeyword TIME_KEYWORDS (toLowerCase input)) as [h|];
    cbn [option_map]; split; try discriminate; try tauto;
    intros [H1 [H2 H3]]; discriminate.
Qed.

(** X10. When the time of day comes from a keyword (the input holds no
    digit), the hour is 9, 14, 18, 20 or 12 and the minute is 0: the entry
    for "midnight" never applies, because every input that includes
    "midnight" includes "night", which comes first in the table. *)
Theorem keyword_time_never_midnight :
  forall (input : string) (t : ParsedTime),
    noDigit input = true ->
    parsedTimeOf input (toLowerCase input) = Some t ->
    minute t = 0
    /\ (hour t = 9 \/ hour t = 14 \/ hour t = 18 \/ hour t = 20 \/ hour t = 12)
    /\ (includes (toLowerCase input) "midnight" = true ->
        includes (toLowerCase input) "morning" = false ->
        includes (toLowerCase input) "afternoon" = false ->
        includes (toLowerCase input) "evening" = false ->
        hour t = 20).
Proof.
  intros input t Hno Ht. unfold parsedTimeOf in Ht.
  rewrite (proj2 (firstTimeMatch_None input) Hno) in Ht.
  set (lower := toLowerCase input) in *.
  pose proof (includes_keyword_tail lower "mid" "night") as Htail.
  change ("mid" ++ "night") with "midnight" in Htail.
  unfold firstKeyword, TIME_KEYWORDS in Ht. cbn [find fst] in Ht.
  destruct (includes lower "morning");
    [injection Ht as <-; cbn; repeat split; auto; intros; discriminate|].
  destruct (includes lower "afternoon");
    [injection Ht as <-; cbn; repeat split; auto; intros; discriminate|].
  destruct (includes lower "evening");
    [injection Ht as <-; cbn; repeat split; auto; intros; discriminate|].
  destruct (includes lower "night") eqn:Hnight;
    [injection Ht as <-; cbn; repeat split; auto 6|].
  destruct (includes lower "midnight") eqn:Hmid;
    [specialize (Htail eq_refl); discriminate Htail|].
  destruct (includes lower "noon");
    [injection Ht as <-; cbn; repeat split; auto 6; intros; discriminate|].
  discriminate Ht.
Qed.

(** The witness of X10: "Call mom at midnight" is set to 20:00. *)
Lemma keyword_time_never_midnight_witness :
  exists t,
    parsedTimeOf "Call mom at midnight" (toLowerCase "Call mom at midnight") = Some t
    /\ hour t = 20.
Proof.
  exists (mkTime 20 0). split; [reflexivity|].
  exact (proj2 (proj2 (keyword_time_never_midnight "Call mom at midnight" (mkTime 20 0)
                         eq_refl eq_refl)) eq_refl eq_refl eq_refl eq_refl).
Defined.

(** X11. An input that contains the letters "low" in any letter case, even
    inside a word or next to another priority keyword, gets priority low. *)
Theorem priority_low_wins :
  forall (now : Date) (pre w post : string),
    toLowerCase w = "low" ->
    priority (parseNaturalLanguage now (pre ++ w ++ post)) = P_low.
Proof.
  intros now pre w post Hw. unfold parseNaturalLanguage. cbn [priority].
  assert (Hinc : includes (toLowerCase (pre ++ w ++ post)) "low" = true).
  { apply includes_iff. exists (toLowerCase pre), (toLowerCase post).
    now rewrite !toLowerCase_app, Hw. }
  unfold firstKeyword, PRIORITY_KEYWORDS. cbn [find fst]. rewrite Hinc. reflexivity.
Qed.

(** The witness of X11: "Follow up" next to "URGENT". *)
Lemma priority_low_wins_witness :
  priority (parseNaturalLanguage 0 "URGENT: folLOW up with the client") = P_low.
Proof.
  exact (priority_low_wins 0 "URGENT: fol" "LOW" " up with the client" eq_refl).
Defined.

(** X12. The title never holds a digit: every digit of the input belongs to
    a clock-time match and is removed with it. *)
Theorem title_has_no_digit :
  forall (now : Date) (input : string),
    noDigit (title (parseNaturalLanguage now input)) = true.
Proof.
  intros now input. unfold parseNaturalLanguage. cbn [title].
  assert (H : noDigit (strippedTitle input) = true).
  { unfold strippedTitle, noDigit.
    apply allChars_trim. apply allChars_collapseFrom; [reflexivity|].
    apply allChars_trim. apply allChars_removeWordsFrom.
    do 3 apply allChars_stripKeywords.
    apply allChars_trim. apply removeTimes_noDigit. }
  destruct (strippedTitle input); [reflexivity | exact H].
Qed.

(** X13. In the title white space comes only as single blanks between other
    characters: none at either end, no two in a row, no tab or line break. *)
Theorem title_is_single_spaced :
  forall (now : Date) (input : string),
    singleSpaced (title (parseNaturalLanguage now input)) = true.
Proof.
  intros now input. unfold parseNaturalLanguage. cbn [title].
  destruct (strippedTitle input) as [|c r] eqn:Hs; [reflexivity|].
  unfold strippedTitle in Hs. cbv zeta in Hs.
  set (t := removeWords CONNECTING_WORDS _) in Hs.
  unfold trim at 1, collapseSpaces in Hs.
  pose proof (spacedFrom_collapseFrom (trim t) false) as Hc.
  apply spacedFrom_skipSpaces in Hc.
  apply singleSpacedFrom_trimEnd in Hc. rewrite Hs in Hc.
  destruct Hc as [Hnil | Hok]; [discriminate Hnil | exact Hok].
Qed.

(** X14. The labels, when present, are a non-empty list without repetition
    of vocabulary words, and they are absent exactly when the lower-cased
    input includes no vocabulary word. *)
Theorem labels_nonempty_distinct :
  forall (now : Date) (input : string),
    (forall l, labels (parseNaturalLanguage now input) = Some l ->
               l <> nil /\ NoDup l /\ incl l LABEL_KEYWORDS)
    /\ (labels (parseNaturalLanguage now input) = None <->
        forall label, In label LABEL_KEYWORDS ->
                      includes (toLowerCase input) label = false).
Proof.
  intros now input. unfold parseNaturalLanguage. cbn [labels].
  assert (Hnodup : NoDup LABEL_KEYWORDS).
  { unfold LABEL_KEYWORDS.
    repeat (constructor; [simpl; intuition discriminate|]). constructor. }
  split.
  - intros l Hl.
    destruct (labelsOf (toLowerCase input)) as [|x r] eqn:Hlab; [discriminate Hl|].
    injection Hl as <-. rewrite <- Hlab. split; [rewrite Hlab; discriminate|].
    unfold labelsOf. split; [now apply NoDup_filter | apply incl_filter].
  - destruct (labelsOf (toLowerCase input)) as [|x r] eqn:Hlab.
    + split; [|reflexivity]. intros _ label Hin.
      destruct (includes (toLowerCase input) label) eqn:Hinc; [|reflexivity].
      assert (Hmem : In label (labelsOf (toLowerCase input)))
        by (apply labelsOf_substrings; auto).
      rewrite Hlab in Hmem. destruct Hmem.
    + split; [discriminate|]. intros Hnone.
      assert (Hmem : In x (labelsOf (toLowerCase input))) by (rewrite Hlab; now left).
      apply labelsOf_substrings in Hmem. destruct Hmem as [Hin Hinc].
      rewrite (Hnone x Hin) in Hinc. discriminate Hinc.
Qed.

(** The witness of X14: "urgent meeting with John". *)
Lemma labels_nonempty_distinct_witness :
  ["urgent"; "meeting"]%list <> nil
  /\ NoDup ["urgent"; "meeting"]%list
  /\ incl ["urgent"; "meeting"]%list LABEL_KEYWORDS.
Proof.
  exact (proj1 (labels_nonempty_distinct 0 "urgent meeting with John")
               ["urgent"; "meeting"]%list eq_refl).
Defined.

End ParserKeywordTheorems.

Section ParserDateFacts.
Import DateFns NaturalLanguageParser.
Local Open Scope string_scope.
Local Open Scope Z_scope.

Lemma day_of_addDays (d k : Z) : addDays d k / MS_PER_DAY = d / MS_PER_DAY + k.
Proof.
  unfold addDays, MS_PER_DAY. rewrite Z.div_add by lia. reflexivity.
Qed.

Lemma startOfDay_addDays (d k : Z) :
  startOfDay (addDays d k) = startOfDay d + k * MS_PER_DAY.
Proof.
  rewrite !startOfDay_multiple, day_of_addDays. lia.
Qed.

Lemma endOfDay_facts (d : Z) :
  endOfDay d / MS_PER_DAY = d / MS_PER_DAY
  /\ endOfDay d mod MS_PER_DAY = MS_PER_DAY - 1
  /\ d <= endOfDay d.
Proof.
  unfold endOfDay. rewrite startOfDay_multiple.
  pose proof (Z.div_mod d MS_PER_DAY ltac:(unfold MS_PER_DAY; lia)) as Hd.
  pose proof (Z.mod_pos_bound d MS_PER_DAY ltac:(unfold MS_PER_DAY; lia)) as Hb.
  unfold MS_PER_DAY in *. repeat split.
  - symmetry. apply (Z.div_unique_pos _ _ _ (86400000 - 1)); lia.
  - symmetry. apply (Z.mod_unique_pos _ _ (d / 86400000)); lia.
  - lia.
Qed.

End ParserDateFacts.

Section ParserDateTheorems.
Import DateFns NaturalLanguageParser.
Local Open Scope string_scope.
Local Open Scope Z_scope.

(** X15. When a clock time is found and its minute is below 60, the due
    date is the day of the base date (the date of the keyword found, or the
    clock reading when there is none) at that hour and minute, and it keeps
    the seconds and milliseconds of the base date; an hour of 24 or more
    carries into the following days. *)
Theorem dueDate_from_clock_time :
  forall (now : Date) (input : string) (m : TimeMatch),
    firstTimeMatch input = Some m ->
    0 <= minute (timeOfMatch m) < 60 ->
    let base := match parsedDateOf now (toLowerCase input) with
                | Some d => d
                | None => now
                end in
    dueDate (parseNaturalLanguage now input)
    = Some (startOfDay base + hour (timeOfMatch m) * MS_PER_HOUR
            + minute (timeOfMatch m) * MS_PER_MINUTE + base mod MS_PER_MINUTE).
Proof.
  intros now input m Hfirst Hmin base. subst base.
  unfold parseNaturalLanguage. cbn [dueDate].
  unfold parsedTimeOf. rewrite Hfirst. unfold finalDateOf.
  destruct (parsedDateOf now (toLowerCase input)) as [d|];
    now rewrite setHours_setMinutes.
Qed.

(** The witness of X15: "Dentist 4:30 pm" read at 10:30:12.345. *)
Lemma dueDate_from_clock_time_witness :
  dueDate (parseNaturalLanguage (mkDate 2024 1 15 10 30 12 345) "Dentist 4:30 pm")
  = Some (mkDate 2024 1 15 16 30 12 345).
Proof.
  rewrite (dueDate_from_clock_time (mkDate 2024 1 15 10 30 12 345) "Dentist 4:30 pm"
             (mkTimeMatch "4" (Some "30") (Some "pm") "") eq_refl);
    [reflexivity | vm_compute; split; [discriminate | reflexivity]].
Defined.

(** X16. When "end of week" is the date keyword found, the date is the last
    millisecond of a Saturday, not before the clock reading and less than
    seven days after the start of its day. *)
Theorem end_of_week_is_saturday :
  forall (now : Date) (lowerInput : string),
    includes lowerInput "today" = false ->
    includes lowerInput "tomorrow" = false ->
    includes lowerInput "yesterday" = false ->
    includes lowerInput "next week" = false ->
    includes lowerInput "next month" = false ->
    includes lowerInput "end of week" = true ->
    exists r,
      parsedDateOf now lowerInput = Some r
      /\ getDay r = 6
      /\ r mod MS_PER_DAY = MS_PER_DAY - 1
      /\ now <= r < startOfDay now + 7 * MS_PER_DAY.
Proof.
  intros now lowerInput H1 H2 H3 H4 H5 H6.
  exists (endOfDay (addDays now (6 - getDay now))). split.
  { unfold parsedDateOf, firstKeyword, DATE_KEYWORDS. cbn [find fst].
    rewrite H1, H2, H3, H4, H5, H6. reflexivity. }
  set (x := addDays now (6 - getDay now)).
  destruct (endOfDay_facts x) as [Hday [Hmod Hle]].
  assert (Hg : 0 <= getDay now < 7)
    by (unfold getDay; apply Z.mod_pos_bound; lia).
  split; [|split; [exact Hmod|]].
  - unfold getDay at 1. rewrite Hday. unfold x. rewrite day_of_addDays.
    unfold getDay.
    pose proof (Z.div_mod (now / MS_PER_DAY + 4) 7 ltac:(lia)) as Hq.
    replace (now / MS_PER_DAY + (6 - (now / MS_PER_DAY + 4) mod 7) + 4)
      with (6 + ((now / MS_PER_DAY + 4) / 7) * 7) by lia.
    rewrite Z_mod_plus_full. reflexivity.
  - split.
    + apply Z.le_trans with x; [|exact Hle].
      unfold x, addDays, MS_PER_DAY. lia.
    + pose proof (Z.div_mod (endOfDay x) MS_PER_DAY ltac:(unfold MS_PER_DAY; lia)) as Hr.
      rewrite Hday, Hmod in Hr. unfold x in Hr. rewrite day_of_addDays in Hr.
      rewrite startOfDay_multiple. fold x in Hr. unfold MS_PER_DAY in *. lia.
Qed.

(** The witness of X16: Monday 15 January 2024 gives Saturday 20 January. *)
Lemma end_of_week_is_saturday_witness :
  exists r,
    parsedDateOf (mkDate 2024 1 15 10 30 0 0) "report by end of week" = Some r
    /\ getDay r = 6
    /\ r mod MS_PER_DAY = MS_PER_DAY - 1
    /\ mkDate 2024 1 15 10 30 0 0 <= r
       < startOfDay (mkDate 2024 1 15 10 30 0 0) + 7 * MS_PER_DAY.
Proof.
  apply end_of_week_is_saturday; reflexivity.
Defined.

(** X17. The day keywords: "today" gives local midnight of the clock
    reading's day and wins over every other date keyword wherever it stands
    in the input; without it "tomorrow" gives the next midnight; without
    both "yesterday" gives the previous one; and without the three "next
    week" gives midnight seven days later. *)
Theorem day_keywords_shift_midnight :
  forall (now : Date) (lowerInput : string),
    (includes lowerInput "today" = true ->
     parsedDateOf now lowerInput = Some (startOfDay now))
    /\ (includes lowerInput "today" = false ->
        includes lowerInput "tomorrow" = true ->
        parsedDateOf now lowerInput = Some (startOfDay now + MS_PER_DAY))
    /\ (includes lowerInput "today" = false ->
        includes lowerInput "tomorrow" = false ->
        includes lowerInput "yesterday" = true ->
        parsedDateOf now lowerInput = Some (startOfDay now - MS_PER_DAY))
    /\ (includes lowerInput "today" = false ->
        includes lowerInput "tomorrow" = false ->
        includes lowerInput "yesterday" = false ->
        includes lowerInput "next week" = true ->
        parsedDateOf now lowerInput = Some (startOfDay now + 7 * MS_PER_DAY)).
Proof.
  intros now lowerInput.
  unfold parsedDateOf, firstKeyword, DATE_KEYWORDS. cbn [find fst].
  repeat split.
  - intros ->. reflexivity.
  - intros -> ->. cbn [option_map snd]. rewrite startOfDay_addDays. f_equal; try lia.
  - intros -> -> ->. cbn [option_map snd]. rewrite startOfDay_addDays. f_equal; try lia.
  - intros -> -> -> ->. cbn [option_map snd]. unfold addWeeks.
    rewrite startOfDay_addDays. f_equal; try lia.
Qed.

(** The witness of X17: "today" wins although "tomorrow" comes first. *)
Lemma day_keywords_shift_midnight_witness :
  parsedDateOf (mkDate 2024 1 15 10 30 0 0) "tomorrow or today"
  = Some (startOfDay (mkDate 2024 1 15 10 30 0 0)).
Proof.
  apply (day_keywords_shift_midnight (mkDate 2024 1 15 10 30 0 0) "tomorrow or today").
  reflexivity.
Defined.

End ParserDateTheorems.

(** * Properties of the fuzzy search and of the validators *)

Section SearchFacts.
Import NaturalLanguageParser SearchBar.
Local Open Scope string_scope.
Local Open Scope Z_scope.







Lemma toLowerCase_nonempty (s : string) : s <> "" -> toLowerCase s <> "".
Proof. destruct s; [congruence | discriminate]. Qed.

Lemma insertByScore_perm {T : Type} (x : T * Z) (l : list (T * Z)) :
  Permutation (insertByScore x l) (x :: l).
Proof.
  induction l as [|y ys IH]; simpl; [reflexivity|].
  destruct (snd y <=? snd x); [reflexivity|].
  rewrite IH. apply perm_swap.
Qed.

Lemma sortByScore_perm {T : Type} (l : list (T * Z)) : Permutation (sortByScore l) l.
Proof.
  induction l as [|x l IH]; simpl; [reflexivity|].
  rewrite insertByScore_perm. now constructor.
Qed.

Lemma insertByScore_sorted {T : Type} (x : T * Z) (l : list (T * Z)) :
  StronglySorted (fun a b => snd b <= snd a) l ->
  StronglySorted (fun a b => snd b <= snd a) (insertByScore x l).
Proof.
  induction l as [|y ys IH]; intros Hs; simpl.
  - constructor; constructor.
  - inversion Hs as [|? ? Hys Hy]; subst.
    destruct (Z.leb_spec (snd y) (snd x)) as [Hle | Hgt].
    + constructor; [assumption|]. constructor; [assumption|].
      rewrite Forall_forall in *. intros z Hz. specialize (Hy z Hz). lia.
    + constructor; [now apply IH|].
      rewrite Forall_forall in *. intros z Hz.
      apply (Permutation_in _ (insertByScore_perm x ys)) in Hz.
      destruct Hz as [<- | Hz]; [lia | now apply Hy].
Qed.

Lemma sortByScore_sorted {T : Type} (l : list (T * Z)) :
  StronglySorted (fun a b => snd b <= snd a) (sortByScore l).
Proof.
  induction l as [|x l IH]; simpl; [constructor | now apply insertByScore_sorted].
Qed.

Lemma filter_scored {T : Type} (score : T -> Z) (items : list T) :
  map fst (filter (fun scored => 0 <? snd scored) (map (fun item => (item, score item)) items))
  = filter (fun item => 0 <? score item) items.
Proof.
  induction items as [|x items IH]; simpl; [reflexivity|].
  destruct (0 <? score x); simpl; now rewrite IH.
Qed.

Lemma StronglySorted_map_fst {T : Type} (score : T -> Z) (l : list (T * Z)) :
  (forall p, In p l -> snd p = score (fst p)) ->
  StronglySorted (fun a b => snd b <= snd a) l ->
  StronglySorted (fun a b => score b <= score a) (map fst l).
Proof.
  induction l as [|x l IH]; intros Hsc Hs; simpl; [constructor|].
  inversion Hs as [|? ? Hl Hx]; subst. constructor.
  - apply IH; [intros p Hp; apply Hsc; now right | assumption].
  - rewrite Forall_forall in *. intros b Hb. apply in_map_iff in Hb.
    destruct Hb as [p [<- Hp]]. specialize (Hx p Hp).
    rewrite <- (Hsc x (or_introl eq_refl)), <- (Hsc p (or_intror Hp)). exact Hx.
Qed.

End SearchFacts.

Section SearchTheorems.
Import NaturalLanguageParser SearchBar.
Local Open Scope string_scope.
Local Open Scope Z_scope.



(** X20. [fuzzySearch] returns the items unchanged when the search term is
    blank; otherwise it returns exactly the items with a positive score,
    each as often as given, in descending order of score. *)
Theorem fuzzySearch_selects_and_sorts :
  forall (T : Type) (items : list T) (searchTerm : string) (getSearchableText : T -> string),
    (trim searchTerm = "" -> fuzzySearch items searchTerm getSearchableText = items)
    /\ (trim searchTerm <> "" ->
        Permutation (fuzzySearch items searchTerm getSearchableText)
                    (filter (fun item => 0 <? scoreOf getSearchableText searchTerm item) items)
        /\ StronglySorted (fun a b => scoreOf getSearchableText searchTerm b
                                      <= scoreOf getSearchableText searchTerm a)
                          (fuzzySearch items searchTerm getSearchableText)).
Proof.
  intros T items searchTerm getSearchableText. unfold fuzzySearch.
  split; [intros ->; reflexivity|]. intros Hterm.
  destruct (trim searchTerm) as [|c r]; [congruence|].
  fold (scoreOf getSearchableText searchTerm).
  set (score := scoreOf getSearchableText searchTerm).
  set (scored := filter (fun scored => 0 <? snd scored)
                        (map (fun item => (item, score item)) items)).
  split.
  - rewrite <- (filter_scored score items). fold scored.
    apply Permutation_map. apply sortByScore_perm.
  - apply StronglySorted_map_fst; [|apply sortByScore_sorted].
    intros p Hp. apply (Permutation_in _ (sortByScore_perm scored)) in Hp.
    unfold scored in Hp. apply filter_In in Hp. destruct Hp as [Hp _].
    apply in_map_iff in Hp. destruct Hp as [item [<- _]]. reflexivity.
Qed.

(** The witness of X20: three of five tasks match " MILK ". *)
Lemma fuzzySearch_selects_and_sorts_witness :
  Permutation
    (fuzzySearch ["Write report"; "buy milk"; "milk"; "Call mum"; "m i l k"]%list
                 " MILK " (fun x => x))
    ["buy milk"; "milk"; "m i l k"]%list.
Proof.
  exact (proj1 (proj2 (fuzzySearch_selects_and_sorts string
                         ["Write report"; "buy milk"; "milk"; "Call mum"; "m i l k"]%list
                         " MILK " (fun x => x)) ltac:(discriminate))).
Defined.

End SearchTheorems.

Section ValidationTheorems.
Import NaturalLanguageParser Validation.
Local Open Scope string_scope.
Local Open Scope Z_scope.

(** X21. [validateName] accepts a name exactly when its trimmed length is at
    least 1, at least the minimum and at most the maximum (the maximum
    itself is accepted), and it reports an error exactly when it rejects.
    The empty name gets the "is required" message; the "cannot be empty"
    message is for a name that is not empty but all white space.
    [validateTitle] is [validateName] with the maximum 200 and the field
    name "Title". *)
Theorem validateName_bounds :
  forall (name : string) (options : NameOptions),
    let lo := match minLength options with Some n => n | None => 2 end in
    let hi := match maxLength options with Some n => n | None => 50 end in
    let field := match fieldName options with Some f => f | None => "Name" end in
    let result := validateName name options in
    (isValid result = true <->
     1 <= lengthOf (trim name) /\ lo <= lengthOf (trim name) <= hi)
    /\ (error result = None <-> isValid result = true)
    /\ (name = "" -> error result = Some (field ++ " is required and must be a string"))
    /\ (name <> "" -> trim name = "" -> error result = Some (field ++ " cannot be empty"))
    /\ validateTitle name = validateName name (mkNameOptions None (Some 200) (Some "Title")).
Proof.
  intros name options. cbv zeta. unfold validateName, validateTitle.
  cbn [minLength maxLength fieldName].
  generalize (match minLength options with Some n => n | None => 2 end) as lo.
  generalize (match maxLength options with Some n => n | None => 50 end) as hi.
  generalize (match fieldName options with Some f => f | None => "Name" end) as field.
  intros field hi lo.
  assert (Hpos : 0 <= lengthOf (trim name)) by (unfold lengthOf; lia).
  destruct name as [|c name].
  - cbn [isValid error invalid]. change (lengthOf (trim "")) with 0.
    split; [split; [discriminate | lia]|].
    split; [split; discriminate|].
    split; [reflexivity|]. split; [congruence | reflexivity].
  - set (full := String c name) in *.
    assert (Hlen : trim full = "" -> lengthOf (trim full) = 0) by (intros ->; reflexivity).
    split; [|split; [|split; [discriminate|split]]].
    + destruct (Z.eqb_spec (lengthOf (trim full)) 0) as [H0 | H0];
        [|destruct (Z.ltb_spec (lengthOf (trim full)) lo) as [Hlo | Hlo];
          [|destruct (Z.ltb_spec hi (lengthOf (trim full))) as [Hhi | Hhi]]];
        cbn [isValid invalid valid]; split; try discriminate; try lia; reflexivity.
    + destruct (lengthOf (trim full) =? 0); [split; discriminate|].
      destruct (lengthOf (trim full) <? lo); [split; discriminate|].
      destruct (hi <? lengthOf (trim full)); [split; discriminate|].
      split; reflexivity.
    + intros _ Hblank. rewrite (Hlen Hblank). reflexivity.
    + destruct (lengthOf (trim full) =? 0); [reflexivity|].
      destruct (lengthOf (trim full) <? 2); [reflexivity|].
      destruct (200 <? lengthOf (trim full)); reflexivity.
Qed.

(** The witness of X21: a name of blanks gets the "cannot be empty"
    message. *)
Lemma validateName_bounds_witness :
  error (validateName "   " (mkNameOptions None None (Some "Label name")))
  = Some "Label name cannot be empty".
Proof.
  apply (validateName_bounds "   " (mkNameOptions None None (Some "Label name")));
    [discriminate | reflexivity].
Defined.

End ValidationTheorems.
